(** * Spatial data science notebooks: routing/isochrone batch and faculty scraper

    A shallow embedding of the two notebook pipelines of the repository:

    - [Env], [Isochrone]: the OpenRouteService notebook (the API key read
      from the environment, the batch isochrone loop that writes
      [camberville_t_iso.csv]);
    - [Slug], [Html], [Scraping]: the faculty scraper (the listing parser,
      the image fetcher, the detail parser and the row writer of
      [faculty.csv]).

    Python values are modelled as the code has them: [str] as [string],
    [None] as a constructor of its own, dictionaries as [gmap], exceptions as
    values of an error monad.  Remote services and third-party libraries
    (the routing service, shapely, requests, wget, the HTML parser) are the
    fields of a [services] record each pipeline takes as an argument: every
    theorem holds for all their behaviours. *)

From stdpp Require Import base option list gmap strings.
From Stdlib Require Import Ascii.
From Stdlib Require QArith.

(** ** Python exceptions and the error monad *)

(** The exception classes the notebooks can meet.  All of them derive from
    [Exception], so a handler [except Exception] catches every one;
    [except FileNotFoundError] catches only the first. [ServiceError] stands
    for whatever a remote call raises (ApiError, HTTPError, Timeout, ...). *)
Inductive exn_class : Type :=
  | FileNotFoundError
  | AttributeError
  | TypeError
  | NameError
  | KeyError
  | IndexError
  | ValueError
  | ServiceError.

Record exn : Type := MkExn { exn_cls : exn_class; exn_msg : string }.

Inductive result (A : Type) : Type :=
  | Ok (a : A)
  | Raise (e : exn).
Arguments Ok {A} a.
Arguments Raise {A} e.

#[global] Instance result_ret : MRet result := fun A a => Ok a.

#[global] Instance result_bind : MBind result := fun A B k m =>
  match m with
  | Ok a => k a
  | Raise e => Raise e
  end.

Definition is_ok {A : Type} (m : result A) : bool :=
  match m with Ok _ => true | Raise _ => false end.

#[global] Instance exn_class_eq_dec : EqDecision exn_class.
Proof. solve_decision. Defined.

(** The Python values a CSV cell or a notebook variable holds here: [None],
    a string, or a caught exception object. *)
Inductive value : Type :=
  | VNone
  | VStr (s : string)
  | VExn (e : exn).

(** Truthiness, as [if v:] tests it. *)
Definition truthy (v : value) : bool :=
  match v with
  | VNone => false
  | VStr s => negb (String.eqb s "")
  | VExn _ => true
  end.

(** [a + b]: defined between two strings only. Exceptions define no
    [__add__] and [str] no [__radd__], so any other pair is a TypeError. *)
Definition add (a b : value) : result value :=
  match a, b with
  | VStr x, VStr y => Ok (VStr (x +:+ y))
  | _, _ => Raise (MkExn TypeError "unsupported operand type(s) for +")
  end.

(** [str(v)], which is also how [csv] renders a cell; [None] is written
    as the empty string and an exception as its message. *)
Definition cell_text (v : value) : string :=
  match v with
  | VNone => ""
  | VStr s => s
  | VExn e => exn_msg e
  end.

(** Programs that thread a state [S] and may raise: the state reached when
    an exception escapes is kept, as a file written so far stays written. *)
Definition prog (S A : Type) : Type := S → S * result A.

#[global] Instance prog_ret {S : Type} : MRet (prog S) := fun A a st => (st, Ok a).

#[global] Instance prog_bind {S : Type} : MBind (prog S) := fun A B k m st =>
  match m st with
  | (st', Ok a) => k a st'
  | (st', Raise e) => (st', Raise e)
  end.

Definition lift {S A : Type} (r : result A) : prog S A := fun st => (st, r).

Definition raise {S A : Type} (e : exn) : prog S A := lift (Raise e).

Definition modify {S : Type} (f : S → S) : prog S unit := fun st => (f st, Ok ()).

(** [try: body / except <classes> as err: handler err]. An exception of a
    class that is not caught, and one raised by the handler, propagate. *)
Definition try_except {S A : Type} (caught : exn_class → bool)
    (body : prog S A) (handler : exn → prog S A) : prog S A := fun st =>
  match body st with
  | (st', Ok a) => (st', Ok a)
  | (st', Raise e) => if caught (exn_cls e) then handler e st' else (st', Raise e)
  end.

(** [except Exception] and [except FileNotFoundError]. *)
Definition any_exception (c : exn_class) : bool := true.
Definition only (c0 c : exn_class) : bool := bool_decide (c0 = c).

(** [for x in l: body x] *)
Fixpoint for_each {S A : Type} (l : list A) (body : A → prog S unit) : prog S unit :=
  match l with
  | [] => mret ()
  | x :: l' => _ ← body x; for_each l' body
  end.

(** [keeps f m]: running [m] does not change the part [f] of the state,
    however it ends. *)
Definition keeps {S A B : Type} (f : S → B) (m : prog S A) : Prop :=
  ∀ st st' r, m st = (st', r) → f st' = f st.

(** ** The API key: [load_dotenv()], [os.getenv], [client.Client(key=...)] *)

Module Env.

(** The process environment [os.environ] is a map from names to values. A
    [.env] file is the list of its bindings [NAME=value] in file order
    ([None]: there is no such file); read as a dictionary, a later binding
    of a name wins. *)
Definition dotenv_dict (bindings : list (string * string)) : gmap string string :=
  foldl (fun d kv => <[kv.1 := kv.2]> d) ∅ bindings.

(** [load_dotenv()] with its default [override=False]: a variable of the
    file is set only when the process environment does not have it yet. *)
Definition load_dotenv (dotenv : option (list (string * string)))
    (environ : gmap string string) : gmap string string :=
  match dotenv with
  | Some bindings => environ ∪ dotenv_dict bindings
  | None => environ
  end.

Definition getenv (name : string) (environ : gmap string string) : option string :=
  environ !! name.

(** The keyword arguments [client.Client] is called with. *)
Record client_args : Type := ClientArgs { key : option string }.

(** The variable the notebook tells the reader to define in [.env]
    ([OSRKEY=yourapikey]) and the one its code reads. *)
Definition documented_variable : string := "OSRKEY".
Definition variable_read : string := "ORSKEY".

(** [load_dotenv(); osrkey = os.getenv('ORSKEY'); ors = client.Client(key=osrkey)] *)
Definition make_client (dotenv : option (list (string * string)))
    (environ : gmap string string) : client_args :=
  let environ' := load_dotenv dotenv environ in
  let osrkey := getenv variable_read environ' in
  ClientArgs osrkey.

End Env.

(** The same cell for any [.env] file. A line of the file is [NAME=value]
    or a bare [NAME]; python-dotenv reads the bare line as a binding of the
    name to [None]. The bindings are taken as its parser yields them, in
    file order, the values unquoted and with their variables resolved. *)

Module Dotenv.

Definition binding : Type := string * option string.

(** [dotenv_values]: a later binding of a name replaces an earlier one, a
    bare name included. *)
Definition dotenv_values (lines : list binding) : gmap string (option string) :=
  foldl (fun d kv => <[kv.1 := kv.2]> d) ∅ lines.

(** [load_dotenv()] with its default [override=False]: a name the process
    environment has is skipped, and so is a name bound to [None]. *)
Definition load_dotenv (dotenv : option (list binding))
    (environ : gmap string string) : gmap string string :=
  match dotenv with
  | Some lines => environ ∪ omap id (dotenv_values lines)
  | None => environ
  end.

(** [load_dotenv(); osrkey = os.getenv('ORSKEY'); ors = client.Client(key=osrkey)] *)
Definition make_client (dotenv : option (list binding))
    (environ : gmap string string) : Env.client_args :=
  let environ' := load_dotenv dotenv environ in
  let osrkey := Env.getenv Env.variable_read environ' in
  Env.ClientArgs osrkey.

(** A file in which every line has a value. *)
Definition valued (bindings : list (string * string)) : list binding :=
  (fun kv => (kv.1, Some kv.2)) <$> bindings.

End Dotenv.

(** ** The image file name: [str.replace], [str.lower] *)

Module Slug.

(** [s.replace(old, new)] for a non-empty [old]: occurrences are replaced
    from the left and do not overlap. [skip] counts the characters of the
    current occurrence still to be dropped. *)
Fixpoint replace_from (old new : string) (skip : nat) (s : string) : string :=
  match s with
  | EmptyString => EmptyString
  | String c s' =>
      match skip with
      | S k => replace_from old new k s'
      | O =>
          if String.prefix old s
          then new +:+ replace_from old new (String.length old - 1) s'
          else String c (replace_from old new 0 s')
      end
  end.

(** For an empty [old] Python puts [new] before every character and at
    the end. *)
Fixpoint intersperse (new : string) (s : string) : string :=
  match s with
  | EmptyString => new
  | String c s' => new +:+ String c (intersperse new s')
  end.

Definition replace (old new s : string) : string :=
  match old with
  | EmptyString => intersperse new s
  | _ => replace_from old new 0 s
  end.

(** [str.lower] on a name of ASCII characters: a capital letter (codes 65
    to 90) becomes its small letter, 32 further on; every other character is
    kept. Python lower-cases non-ASCII capitals too, with the case tables of
    the Unicode database, which the notebook does not contain: names with a
    character outside ASCII are outside this model, and the properties of
    the file name are stated for the names [is_ascii] accepts. *)
Definition lower_ascii (c : ascii) : ascii :=
  let n := nat_of_ascii c in
  if (65 <=? n)%nat && (n <=? 90)%nat then ascii_of_nat (n + 32) else c.

Fixpoint lower (s : string) : string :=
  match s with
  | EmptyString => EmptyString
  | String c s' => String (lower_ascii c) (lower s')
  end.

(** [image_file = name.replace(' ', '_').lower().replace('.', '') + '.jpg'] *)
Definition image_file_of (name : string) : string :=
  replace "." "" (lower (replace " " "_" name)) +:+ ".jpg".

(** The names the model of [str.lower] covers: every character is below
    128. *)
Fixpoint is_ascii (s : string) : bool :=
  match s with
  | EmptyString => true
  | String c s' => (nat_of_ascii c <? 128)%nat && is_ascii s'
  end.

(** The same file name in the words of the specification, one character at
    a time: a space becomes an underscore, a period is dropped, any other
    character is lower-cased; then the suffix. Lower-casing is read off the
    alphabet: a capital letter is replaced by the small letter at the same
    place, and nothing else changes. *)
Definition capitals : string := "ABCDEFGHIJKLMNOPQRSTUVWXYZ".
Definition smalls : string := "abcdefghijklmnopqrstuvwxyz".

Fixpoint translate (from to : string) (c : ascii) : ascii :=
  match from, to with
  | String f from', String t to' => if Ascii.eqb c f then t else translate from' to' c
  | _, _ => c
  end.

Definition small_letter (c : ascii) : ascii := translate capitals smalls c.

Definition slug_char (c : ascii) : string :=
  if Ascii.eqb c " " then "_"
  else if Ascii.eqb c "." then ""
  else String (small_letter c) "".

Fixpoint map_chars (f : ascii → string) (s : string) : string :=
  match s with
  | EmptyString => EmptyString
  | String c s' => f c +:+ map_chars f s'
  end.

Definition spec_slug (name : string) : string := map_chars slug_char name +:+ ".jpg".

End Slug.


(** ** The [csv] module: [DictReader] and [DictWriter] *)

Module Csv.

(** A row dictionary. Its keys are column names, and possibly the key
    [None] ([DictReader]'s default [restkey]) which holds the cells a long
    row has beyond the header: [rest]. A cell read from a file is a string,
    or [None] ([DictReader]'s default [restval]) where a short row has no
    cell. *)
Record row : Type := Row {
  fields : gmap string value;
  rest : option (list string)
}.

(** [dict(zip(fieldnames, cells))]: a later duplicate name wins. *)
Definition zip_dict (fieldnames cells : list string) : gmap string value :=
  foldl (fun d kv => <[kv.1 := VStr kv.2]> d) ∅ (zip fieldnames cells).

(** [DictReader.__next__] on one record of the underlying reader. *)
Definition dict_row (fieldnames cells : list string) : row :=
  let d := zip_dict fieldnames cells in
  let lf := length fieldnames in
  let lr := length cells in
  if bool_decide (lf < lr) then Row d (Some (drop lf cells))
  else if bool_decide (lr < lf)
  then Row (foldl (fun d k => <[k := VNone]> d) d (drop lr fieldnames)) None
  else Row d None.

(** [reader.fieldnames]: the first record of the file, [None] for a file
    with no record at all. *)
Definition fieldnames (records : list (list string)) : option (list string) :=
  head records.

Definition is_blank (cells : list string) : bool :=
  match cells with [] => true | _ => false end.

(** The rows [for line in reader] yields: the records after the header,
    blank ones skipped. *)
Definition dict_rows (records : list (list string)) : list row :=
  match records with
  | [] => []
  | header :: data => map (dict_row header) (filter (fun r => negb (is_blank r)) data)
  end.

(** [line[name]] *)
Definition getitem (line : row) (name : string) : result value :=
  match fields line !! name with
  | Some v => Ok v
  | None => Raise (MkExn KeyError name)
  end.

(** [line[name] = value] *)
Definition setitem (line : row) (name : string) (v : value) : row :=
  Row (<[name := v]> (fields line)) (rest line).

(** [rowdict.keys() - self.fieldnames]; the key [None] is never a field
    name. *)
Definition wrong_fields (field_names : list string) (line : row) : list (option string) :=
  (Some <$> filter (fun k => k ∉ field_names) (map_to_list (fields line)).*1)
  ++ (match rest line with Some _ => [None] | None => [] end).

(** [DictWriter._dict_to_list] with the defaults [restval=''] and
    [extrasaction='raise']. *)
Definition dict_to_list (field_names : list string) (line : row) : result (list string) :=
  match wrong_fields field_names line with
  | [] => Ok ((fun k => cell_text (default (VStr "") (fields line !! k))) <$> field_names)
  | _ :: _ => Raise (MkExn ValueError "dict contains fields not in fieldnames")
  end.

End Csv.

(** ** The batch isochrone cell *)

Module Isochrone.
Import Csv.

(** A parsed JSON document, as the routing client returns it. A dictionary
    is the list of its items (keys distinct); a number is the rational it
    denotes. *)
#[warnings="-register-all"]
Inductive json : Type :=
  | JNull
  | JBool (b : bool)
  | JNum (x : QArith_base.Q)
  | JStr (s : string)
  | JList (l : list json)
  | JDict (d : list (string * json)).

Fixpoint assoc (k : string) (d : list (string * json)) : option json :=
  match d with
  | [] => None
  | (k', v) :: d' => if String.eqb k k' then Some v else assoc k d'
  end.

(** [v[k]] for a string [k]. *)
Definition subscript_key (v : json) (k : string) : result json :=
  match v with
  | JDict d =>
      match assoc k d with
      | Some x => Ok x
      | None => Raise (MkExn KeyError k)
      end
  | _ => Raise (MkExn TypeError "indices must be integers, or not subscriptable")
  end.

(** [v[i]] for an index [i]. *)
Definition subscript_index (v : json) (i : nat) : result json :=
  match v with
  | JList l =>
      match l !! i with
      | Some x => Ok x
      | None => Raise (MkExn IndexError "list index out of range")
      end
  | JStr s =>
      match String.get i s with
      | Some c => Ok (JStr (String c ""))
      | None => Raise (MkExn IndexError "string index out of range")
      end
  | JDict _ => Raise (MkExn KeyError "0")
  | _ => Raise (MkExn TypeError "object is not subscriptable")
  end.

(** The keyword arguments [ors.isochrones] is called with. *)
Record params : Type := Params {
  locations : list (list value);
  profile : string;
  range_type : string;
  range : list Z;
  smoothing : Z
}.

(** What the notebook does not contain: the routing service behind
    [ors.isochrones] and shapely's [shape(...).wkt]. *)
Record services : Type := Services {
  ors_isochrones : params → result json;
  shape_wkt : json → result string
}.

Inductive output : Type :=
  | Printed (s : string)
  | PPrinted (e : exn).

(** The world the cell acts on: the output file (the records written so
    far, [None] while it has not been opened), what was printed, the
    requests sent to the service, and the seconds slept. *)
Record state : Type := State {
  outcsv : option (list (list string));
  stdout : list output;
  requests : list params;
  slept : nat
}.

Definition initial : state := State None [] [] 0.

Definition print (o : output) : prog state unit :=
  modify (fun st => State (outcsv st) (stdout st ++ [o]) (requests st) (slept st)).

Definition sleep (n : nat) : prog state unit :=
  modify (fun st => State (outcsv st) (stdout st) (requests st) (slept st + n)).

(** [open(out_file, 'w')] creates or truncates the file. *)
Definition open_write : prog state unit :=
  modify (fun st => State (Some []) (stdout st) (requests st) (slept st)).

(** The underlying [writer.writerow]. *)
Definition write_record (cells : list string) : prog state unit :=
  modify (fun st =>
    State (Some (default [] (outcsv st) ++ [cells])) (stdout st) (requests st) (slept st)).

Definition writeheader (field_names : list string) : prog state unit :=
  write_record field_names.

Definition writerow (field_names : list string) (line : row) : prog state unit :=
  cells ← lift (dict_to_list field_names line); write_record cells.

(** [open(mbta_locs, 'r')] and the records the csv reader finds in it. *)
Definition open_read (infile : option (list (list string))) : prog state (list (list string)) :=
  match infile with
  | Some records => mret records
  | None => raise (MkExn FileNotFoundError "No such file or directory")
  end.

(** The call of [ors.isochrones]: the request is logged, then answered. *)
Definition isochrones (sv : services) (p : params) : prog state json := fun st =>
  (State (outcsv st) (stdout st) (requests st ++ [p]) (slept st), ors_isochrones sv p).

Definition mbta_locs : string := "camberville_t.csv".

(** [params = {'locations': [[line['X'], line['Y']]], ...}] *)
Definition line_params (line : row) : result params :=
  x ← getitem line "X";
  y ← getitem line "Y";
  Ok (Params [[x; y]] "foot-walking" "time" [600%Z] 10%Z).

(** [shape(request['features'][0]['geometry']).wkt] *)
Definition geometry_wkt (sv : services) (request : json) : result string :=
  features ← subscript_key request "features";
  feature ← subscript_index features 0;
  geometry ← subscript_key feature "geometry";
  shape_wkt sv geometry.

(** The body of [for line in reader]. *)
Definition process_line (sv : services) (field_names : list string) (line : row)
    : prog state unit :=
  p ← lift (line_params line);
  try_except any_exception
    (request ← isochrones sv p;
     wkt ← lift (geometry_wkt sv request);
     let line := setitem line "geom" (VStr wkt) in
     _ ← sleep 2;
     writerow field_names line)
    (fun err => print (PPrinted err)).

(** The whole cell. *)
Definition batch (sv : services) (infile : option (list (list string))) : prog state unit :=
  try_except (only FileNotFoundError)
    (records ← open_read infile;
     _ ← open_write;
     field_names ←
       match fieldnames records with
       | Some names => mret (names ++ ["geom"])
       | None => raise (MkExn TypeError "unsupported operand type(s) for +: 'NoneType' and 'list'")
       end;
     _ ← writeheader field_names;
     for_each (dict_rows records) (process_line sv field_names))
    (fun _ => print (Printed (mbta_locs +:+ " does not exist"))).

(** *** Pure descriptions used to state the properties *)

(** The outcome of the request and of the conversion for one line. *)
Definition line_wkt (sv : services) (line : row) : result string :=
  p ← line_params line;
  request ← ors_isochrones sv p;
  geometry_wkt sv request.

Definition line_failed (sv : services) (line : row) : bool := negb (is_ok (line_wkt sv line)).

(** [cells] is the record the cell writes for [line]: the cells of the
    line, with the WKT text of its isochrone under [geom]. *)
Definition is_row_of (sv : services) (field_names : list string) (line : row)
    (cells : list string) : Prop :=
  ∃ wkt, line_wkt sv line = Ok wkt
         ∧ dict_to_list field_names (setitem line "geom" (VStr wkt)) = Ok cells.

(** A line the loop can process and the writer accepts. *)
Definition writable (field_names : list string) (line : row) : Prop :=
  (∃ p, line_params line = Ok p)
  ∧ ∀ wkt, ∃ cells, dict_to_list field_names (setitem line "geom" (VStr wkt)) = Ok cells.

(** The records of the input file, when there is one. *)
Definition lines_of (infile : option (list (list string))) : list row :=
  dict_rows (default [] infile).

(** A valid input file: a header with the columns [X] and [Y], and no
    record longer than the header. *)
Definition valid_csv (records : list (list string)) : bool :=
  match records with
  | [] => false
  | header :: data =>
      bool_decide ("X" ∈ header) && bool_decide ("Y" ∈ header)
      && forallb (fun r => bool_decide (length r ≤ length header)) data
  end.

End Isochrone.

(** ** Parsed HTML: the part of Beautiful Soup the scraper uses *)

Module Html.

(** A parsed document: text nodes, and tags with their name, the values of
    their [class] attribute, their other attributes and their children. *)
#[warnings="-register-all"]
Inductive node : Type :=
  | Text (s : string)
  | Tag (name : string) (classes : list string) (attrs : list (string * string))
        (children : list node).

(** [tag.get_text()]: the text of all the strings below, in document
    order. On a text node it is the string itself (bs4 4.9 and later). *)
Fixpoint get_text (n : node) : string :=
  match n with
  | Text s => s
  | Tag _ _ _ children => foldr (fun c acc => get_text c +:+ acc) "" children
  end.

(** [tag.get(attr)]: [None] when the tag has no such attribute. *)
Fixpoint lookup_attr (attr : string) (attrs : list (string * string)) : option string :=
  match attrs with
  | [] => None
  | (k, v) :: attrs' => if String.eqb attr k then Some v else lookup_attr attr attrs'
  end.

Definition get (attr : string) (n : node) : option string :=
  match n with
  | Text _ => None
  | Tag _ _ attrs _ => lookup_attr attr attrs
  end.

(** [class_=c] matches a tag when [c] is one of its classes, or when it is
    the whole value of the class attribute. *)
Definition class_matches (c : string) (classes : list string) : bool :=
  bool_decide (c ∈ classes) || String.eqb c (String.concat " " classes).

Definition matches (name : string) (class_ : option string) (n : node) : bool :=
  match n with
  | Text _ => false
  | Tag name' classes _ _ =>
      String.eqb name name'
      && match class_ with
         | None => true
         | Some c => class_matches c classes
         end
  end.

(** [n.find(name, class_=...)]: the first matching tag below [n] in
    document order, with the siblings that follow it (what [next_sibling]
    walks through); [None] when there is none. *)
Fixpoint find (name : string) (class_ : option string) (n : node)
    : option (node * list node) :=
  match n with
  | Text _ => None
  | Tag _ _ _ children =>
      (fix go (l : list node) : option (node * list node) :=
         match l with
         | [] => None
         | c :: l' =>
             if matches name class_ c then Some (c, l')
             else match find name class_ c with
                  | Some r => Some r
                  | None => go l'
                  end
         end) children
  end.

(** [n.find_all(name, class_=...)]: every matching tag below [n], in
    document order. *)
Fixpoint find_all (name : string) (class_ : option string) (n : node) : list node :=
  match n with
  | Text _ => []
  | Tag _ _ _ children =>
      (fix go (l : list node) : list node :=
         match l with
         | [] => []
         | c :: l' =>
             (if matches name class_ c then [c] else [])
             ++ find_all name class_ c ++ go l'
         end) children
  end.

(** A method called on the result of [find]: on [None] it raises
    AttributeError. *)
Definition deref {A : Type} (o : option A) (method : string) : result A :=
  match o with
  | Some a => Ok a
  | None => Raise (MkExn AttributeError ("'NoneType' object has no attribute '" +:+ method +:+ "'"))
  end.

(** [n.find(name, class_=c).get_text()] *)
Definition find_text (name c : string) (n : node) : result string :=
  found ← deref (find name (Some c) n) "get_text";
  Ok (get_text found.1).

(** [x = soup.find(name, class_=c)] followed by [if x: x = x.get_text()]:
    a tag is always truthy, so the result is the text or [None]. *)
Definition optional_text (name c : string) (soup : node) : value :=
  match find name (Some c) soup with
  | Some (tag, _) => VStr (get_text tag)
  | None => VNone
  end.

End Html.

(** ** The faculty scraper: the cell that writes [faculty.csv] *)

Module Scraping.
Import Html.

(** What the notebook does not contain: the web ([requests.get(url).content]),
    the HTML parser, [wget.download] and the working directory. *)
Record services : Type := Services {
  requests_get : string → result string;
  html_parser : string → node;
  wget_download : option string → string → result unit;
  getcwd : string
}.

(** The world the cell acts on: the records written to [faculty.csv],
    what was printed, the downloads attempted, the sleeps taken, and the
    notebook variables that live across iterations ([bio], [office],
    [email], [interests], [image_file]); a name missing from [vars] is
    unbound. *)
Record state : Type := State {
  faculty_csv : list (list string);
  stdout : list string;
  downloads : list (option string * string);
  naps : nat;
  vars : gmap string value
}.

Definition initial (vars0 : gmap string value) : state := State [] [] [] 0 vars0.

Definition print (s : string) : prog state unit :=
  modify (fun st => State (faculty_csv st) (stdout st ++ [s]) (downloads st) (naps st) (vars st)).

(** [time.sleep(1.5)] *)
Definition sleep : prog state unit :=
  modify (fun st => State (faculty_csv st) (stdout st) (downloads st) (S (naps st)) (vars st)).

(** [x = v] *)
Definition assign (x : string) (v : value) : prog state unit :=
  modify (fun st =>
    State (faculty_csv st) (stdout st) (downloads st) (naps st) (<[x := v]> (vars st))).

(** Reading a variable: NameError when it is unbound. *)
Definition read (x : string) : prog state value := fun st =>
  match vars st !! x with
  | Some v => (st, Ok v)
  | None => (st, Raise (MkExn NameError ("name '" +:+ x +:+ "' is not defined")))
  end.

(** [open(output_csv, 'w')] creates or truncates the file. *)
Definition open_write : prog state unit :=
  modify (fun st => State [] (stdout st) (downloads st) (naps st) (vars st)).

Definition write_record (cells : list string) : prog state unit :=
  modify (fun st =>
    State (faculty_csv st ++ [cells]) (stdout st) (downloads st) (naps st) (vars st)).

Definition field_names : list string :=
  ["name"; "href"; "pos_1"; "pos_2"; "other_affil";
   "bio"; "office"; "email"; "interests"; "image_file"].

Definition writeheader : prog state unit := write_record field_names.

Definition writerow (line : Csv.row) : prog state unit :=
  cells ← lift (Csv.dict_to_list field_names line); write_record cells.

(** [wget.download(url, path)]: the attempt is logged, then answered. *)
Definition download (sv : services) (url : option string) (path : string)
    : prog state unit := fun st =>
  (State (faculty_csv st) (stdout st) (downloads st ++ [(url, path)]) (naps st) (vars st),
   wget_download sv url path).

(** [BeautifulSoup(requests.get(href).content, 'html.parser')] *)
Definition fetch_soup (sv : services) (href : value) : result node :=
  match href with
  | VStr url => content ← requests_get sv url; Ok (html_parser sv content)
  | _ => Raise (MkExn TypeError "the URL is not a string")
  end.

(** [interests.next_sibling.next_sibling.get_text()] on the siblings that
    follow the tag found. *)
Definition second_sibling_text (siblings : list node) : result string :=
  _ ← deref (siblings !! 0) "next_sibling";
  n ← deref (siblings !! 1) "get_text";
  Ok (get_text n).

(** The [if image_url:] block. *)
Definition fetch_image (sv : services) (name : string) (person : node) : prog state unit :=
  match find "img" None person with
  | Some (img, _) =>
      let image_url := get "src" img in
      let out_dir := getcwd sv +:+ "/images/" in
      let image_file := Slug.image_file_of name in
      _ ← assign "image_file" (VStr image_file);
      try_except any_exception
        (download sv image_url (out_dir +:+ image_file))
        (fun err =>
           msg ← lift (add (VExn err) (VStr "---Could not download faculty photo."));
           _ ← print (cell_text msg);
           assign "image_file" (VExn err))
  | None => mret ()
  end.

(** [interests = person_soup.find('strong', class_=...)] followed by
    [if interests: interests = interests.next_sibling.next_sibling.get_text()]. *)
Definition interests_text (person_soup : node) : result value :=
  match find "strong" (Some "views-label views-label-field-areas-of-interest") person_soup with
  | Some (_, siblings) => text ← second_sibling_text siblings; Ok (VStr text)
  | None => Ok VNone
  end.

(** The [if href:] block. *)
Definition fetch_details (sv : services) (href : value) : prog state unit :=
  if truthy href then
    person_soup ← lift (fetch_soup sv href);
    _ ← assign "bio" (optional_text "div" "pane-user-field-bio" person_soup);
    _ ← assign "office" (optional_text "div" "views-field views-field-field-office" person_soup);
    _ ← assign "email"
          (optional_text "div" "views-field views-field-field-secondary-email" person_soup);
    interests ← lift (interests_text person_soup);
    assign "interests" interests
  else mret ().

(** The body of [for person in people]. *)
Definition scrape_person (sv : services) (person : node) : prog state unit :=
  name_href ← lift (deref (find "a" (Some "username") person) "get_text");
  let name := get_text name_href.1 in
  _ ← print ("Scraping " +:+ name +:+ "...");
  href ← lift (add (VStr "http://dusp.mit.edu")
                   (from_option VStr VNone (get "href" name_href.1)));
  _ ← fetch_image sv name person;
  pos_1 ← lift (find_text "div" "views-field-field-position-and-title-1" person);
  pos_2 ← lift (find_text "div" "views-field-field-position-and-title-2" person);
  other_affil ← lift (find_text "div" "views-field-field-other-division" person);
  _ ← fetch_details sv href;
  bio ← read "bio";
  office ← read "office";
  email ← read "email";
  interests ← read "interests";
  image_file ← read "image_file";
  let row := Csv.Row (list_to_map
    [("name", VStr name); ("href", href); ("pos_1", VStr pos_1); ("pos_2", VStr pos_2);
     ("other_affil", VStr other_affil); ("bio", bio); ("office", office);
     ("email", email); ("interests", interests); ("image_file", image_file)]) None in
  _ ← writerow row;
  sleep.

(** The whole cell, over the record blocks found on the listing page. *)
Definition faculty_cell (sv : services) (people : list node) : prog state unit :=
  _ ← open_write;
  _ ← writeheader;
  for_each people (scrape_person sv).

(** [people = soup.find_all('div', class_='row-people')] *)
Definition people_of (soup : node) : list node := find_all "div" (Some "row-people") soup.

(** *** Descriptions used to state the properties *)

(** The name shown for a record block, when it has one. *)
Definition record_name (person : node) : option string :=
  (fun found => get_text found.1) <$> find "a" (Some "username") person.

(** The classes of the three label/value fields of a record block. *)
Definition listing_fields : list string :=
  ["views-field-field-position-and-title-1";
   "views-field-field-position-and-title-2";
   "views-field-field-other-division"].

(** The value of the variable [image_file], [None] while it is unbound. *)
Definition image_file_var (st : state) : option value := vars st !! "image_file".

(** The column [c] of a written record. *)
Definition column (c : string) (cells : list string) : option string :=
  i ← list_find (String.eqb c) field_names; cells !! i.1.

End Scraping.

(** ** Sample inputs *)

Module Samples.

(** A routing service that answers every request with one polygon, except
    for the station whose [X] cell is not a number, and a WKT rendering of
    that polygon. *)
Definition polygon : Isochrone.json :=
  Isochrone.JDict
    [("type", Isochrone.JStr "Polygon");
     ("coordinates",
      Isochrone.JList [Isochrone.JList
        [Isochrone.JList [Isochrone.JNum (QArith_base.Qmake (-711) 10);
                          Isochrone.JNum (QArith_base.Qmake 423 10)];
         Isochrone.JList [Isochrone.JNum (QArith_base.Qmake (-712) 10);
                          Isochrone.JNum (QArith_base.Qmake 424 10)];
         Isochrone.JList [Isochrone.JNum (QArith_base.Qmake (-711) 10);
                          Isochrone.JNum (QArith_base.Qmake 423 10)]]])].

Definition response : Isochrone.json :=
  Isochrone.JDict
    [("type", Isochrone.JStr "FeatureCollection");
     ("features", Isochrone.JList [Isochrone.JDict
        [("type", Isochrone.JStr "Feature"); ("geometry", polygon)]])].

Definition rate_limited : exn := MkExn ServiceError "429 Rate limit exceeded".

Definition routing : Isochrone.services :=
  Isochrone.Services
    (fun p =>
       match Isochrone.locations p with
       | [[VStr "n/a"; _]] => Raise rate_limited
       | _ => Ok response
       end)
    (fun geometry => Ok "POLYGON ((-71.1 42.3, -71.2 42.4, -71.1 42.3))").

(** Three stations; the request for the second one fails; a blank line
    and a short record are in the file too. *)
Definition stations : list (list string) :=
  [["STATION"; "X"; "Y"];
   ["Harvard"; "-71.119"; "42.373"];
   ["Kendall/MIT"; "n/a"; "42.362"];
   [];
   ["Davis"; "-71.122"];
   ["Porter"; "-71.119"; "42.388"]].

(** The scenario of the specification: one row. *)
Definition one_station : list (list string) :=
  [["STATION"; "X"; "Y"]; ["Test"; "-71.1"; "42.3"]].

Definition kendall : Csv.row := Csv.dict_row ["STATION"; "X"; "Y"] ["Kendall/MIT"; "n/a"; "42.362"].

(** A record block of the listing page, with or without its picture and
    its first position field. *)
Definition field (class_ text : string) : Html.node :=
  Html.Tag "div" ["views-field"; class_] []
    [Html.Text " "; Html.Tag "div" ["field-content"] [] [Html.Text text]; Html.Text " "].

Definition block (name href : string) (picture position : bool) : Html.node :=
  Html.Tag "div" ["views-row"; "row-people"] []
    ((if picture
      then [Html.Tag "div" ["views-field"; "views-field-field-user-picture"] []
              [Html.Tag "img" [] [("alt", ""); ("src", "http://dusp.mit.edu/pictures/" +:+ name)] []]]
      else [])
     ++ [Html.Tag "div" ["views-field"; "views-field-name"] []
           [Html.Tag "span" ["field-content"] []
              [Html.Tag "a" ["username"] [("href", href); ("title", "View user profile.")]
                 [Html.Text name]]]]
     ++ (if position then [field "views-field-field-position-and-title-1" "Lecturer"] else [])
     ++ [field "views-field-field-position-and-title-2" "";
         field "views-field-field-other-division" ""]).

Definition cherie : Html.node := block "Cherie Abbanat" "/faculty/cherie-abbanat" true true.
Definition paul : Html.node := block "Paul Altidor" "/faculty/paul-altidor" false true.
Definition mariana : Html.node := block "Mariana Arcaya" "/faculty/mariana-arcaya" true false.

Definition listing : Html.node :=
  Html.Tag "html" [] [] [Html.Tag "body" [] [] [cherie; paul]].

(** A detail page with a biography, an office and interests, and one with
    nothing. *)
Definition detail : Html.node :=
  Html.Tag "html" [] []
    [Html.Tag "div" ["pane-user-field-bio"] [] [Html.Text "Cherie is a lecturer."];
     Html.Tag "div" ["views-field"; "views-field-field-office"] [] [Html.Text "9-520"];
     Html.Tag "div" ["views-field"; "views-field-field-areas-of-interest"] []
       [Html.Tag "strong" ["views-label"; "views-label-field-areas-of-interest"] []
          [Html.Text "Areas of Interest: "];
        Html.Text " ";
        Html.Tag "div" ["field-content"] [] [Html.Text "Community Planning"]]].

Definition bare_detail : Html.node := Html.Tag "html" [] [] [].

(** The web: detail pages are served; [photos] says whether downloads
    succeed. *)
Definition web (photos : bool) : Scraping.services :=
  Scraping.Services
    (fun url => Ok url)
    (fun content =>
       if String.eqb content "http://dusp.mit.edu/faculty/cherie-abbanat"
       then detail else bare_detail)
    (fun url path =>
       if photos then Ok () else Raise (MkExn ServiceError "HTTP Error 404: Not Found"))
    "/home/user/python-bs".

End Samples.

(** ** The other cells of the routing notebook *)

Module Cells.
Import Csv Isochrone.

(** [str(v)], as [print] shows a value: [None] is printed as the word. *)
Definition str_of (v : value) : string :=
  match v with
  | VNone => "None"
  | VStr s => s
  | VExn e => exn_msg e
  end.

(** The cell that lists the stations:
    [for line in reader: print(line['STATION'])], inside the same
    [try ... except FileNotFoundError]. *)
Definition print_station (line : row) : prog state unit :=
  station ← lift (getitem line "STATION");
  print (Printed (str_of station)).

Definition print_stations (infile : option (list (list string))) : prog state unit :=
  try_except (only FileNotFoundError)
    (records ← open_read infile;
     for_each (dict_rows records) print_station)
    (fun _ => print (Printed (mbta_locs +:+ " does not exist"))).

(** The cell that requests the isochrones and prints them without writing
    a file: the body of its loop and the whole cell. *)
Definition preview_line (sv : services) (line : row) : prog state unit :=
  p ← lift (line_params line);
  try_except any_exception
    (request ← isochrones sv p;
     wkt ← lift (geometry_wkt sv request);
     let line := setitem line "geom" (VStr wkt) in
     geom ← lift (getitem line "geom");
     _ ← print (Printed (str_of geom));
     sleep 2)
    (fun err => print (PPrinted err)).

Definition preview (sv : services) (infile : option (list (list string))) : prog state unit :=
  try_except (only FileNotFoundError)
    (records ← open_read infile;
     for_each (dict_rows records) (preview_line sv))
    (fun _ => print (Printed (mbta_locs +:+ " does not exist"))).

(** *** Descriptions used to state the properties *)

(** How one iteration of the batch loop ends for a line: the request or
    the conversion raised, the writer refused the row, or the row was
    written. *)
Inductive outcome : Type :=
  | Failed (err : exn)
  | Refused (err : exn)
  | Written (cells : list string).

Definition line_outcome (sv : services) (field_names : list string) (line : row) : outcome :=
  match line_wkt sv line with
  | Raise err => Failed err
  | Ok wkt =>
      match dict_to_list field_names (setitem line "geom" (VStr wkt)) with
      | Ok cells => Written cells
      | Raise err => Refused err
      end
  end.

(** The state after an iteration that sent the request [p] and ended with
    the outcome [o]. *)
Definition after_line (p : params) (o : outcome) (st : state) : state :=
  match o with
  | Failed err =>
      State (outcsv st) (stdout st ++ [PPrinted err]) (requests st ++ [p]) (slept st)
  | Refused err =>
      State (outcsv st) (stdout st ++ [PPrinted err]) (requests st ++ [p]) (slept st + 2)
  | Written cells =>
      State (Some (default [] (outcsv st) ++ [cells])) (stdout st) (requests st ++ [p])
        (slept st + 2)
  end.

(** The WKT text obtained for a line, and the exception its request or
    conversion raised: one of the two is [None]. *)
Definition wkt_of (sv : services) (line : row) : option string :=
  match line_wkt sv line with
  | Ok wkt => Some wkt
  | Raise _ => None
  end.

Definition error_of (sv : services) (line : row) : option exn :=
  match line_wkt sv line with
  | Ok _ => None
  | Raise err => Some err
  end.

(** What the preview cell prints for a line. *)
Definition preview_output (sv : services) (line : row) : output :=
  match line_wkt sv line with
  | Ok wkt => Printed wkt
  | Raise err => PPrinted err
  end.

(** The texts printed with [print], and the errors printed with [pprint]. *)
Definition printed_texts (out : list output) : list string :=
  omap (fun o => match o with Printed s => Some s | PPrinted _ => None end) out.

Definition printed_errors (out : list output) : list exn :=
  omap (fun o => match o with PPrinted e => Some e | Printed _ => None end) out.

(** A file whose header has the columns the loop reads. *)
Definition has_coordinates (records : list (list string)) : bool :=
  match records with
  | [] => false
  | header :: _ => bool_decide ("X" ∈ header) && bool_decide ("Y" ∈ header)
  end.

End Cells.

(** ** The first cell that writes [faculty.csv] (no photos yet) *)

Module FirstCells.
Import Html Scraping.

Definition field_names : list string :=
  ["name"; "href"; "pos_1"; "pos_2"; "other_affil"; "bio"; "office"; "email"; "interests"].

Definition writeheader : prog state unit := write_record field_names.

Definition writerow (line : Csv.row) : prog state unit :=
  cells ← lift (Csv.dict_to_list field_names line); write_record cells.

(** The body of [for person in people[0:3]]: as in the final cell, without
    the message, the image block, the [image_file] column and the sleep. *)
Definition scrape_person (sv : services) (person : node) : prog state unit :=
  name_href ← lift (deref (find "a" (Some "username") person) "get_text");
  let name := get_text name_href.1 in
  href ← lift (add (VStr "http://dusp.mit.edu")
                   (from_option VStr VNone (get "href" name_href.1)));
  pos_1 ← lift (find_text "div" "views-field-field-position-and-title-1" person);
  pos_2 ← lift (find_text "div" "views-field-field-position-and-title-2" person);
  other_affil ← lift (find_text "div" "views-field-field-other-division" person);
  _ ← fetch_details sv href;
  bio ← read "bio";
  office ← read "office";
  email ← read "email";
  interests ← read "interests";
  let row := Csv.Row (list_to_map
    [("name", VStr name); ("href", href); ("pos_1", VStr pos_1); ("pos_2", VStr pos_2);
     ("other_affil", VStr other_affil); ("bio", bio); ("office", office);
     ("email", email); ("interests", interests)]) None in
  writerow row.

(** The whole cell; [people[0:3]] is the first three record blocks, or all
    of them when there are fewer. *)
Definition faculty_cell (sv : services) (people : list node) : prog state unit :=
  _ ← open_write;
  _ ← writeheader;
  for_each (take 3 people) (scrape_person sv).

End FirstCells.

(** ** The single requests and the files they are dumped to *)

Module Requests.
Import Isochrone.

(** The keyword arguments of [ors.directions] and of the single
    [ors.isochrones] request, whose coordinates are numbers. *)
Record route_params : Type := RouteParams {
  coordinates : list (list QArith_base.Q);
  route_profile : string;
  instructions : string;
  format_out : string;
  units : string
}.

Record isochrone_params : Type := IsochroneParams {
  locations : list (list QArith_base.Q);
  profile : string;
  range_type : string;
  range : list Z
}.

(** The routing service behind the client. *)
Record services : Type := Services {
  ors_directions : route_params → result json;
  ors_isochrones : isochrone_params → result json
}.

Inductive shown : Type :=
  | ShownJson (v : json)
  | ShownExn (e : exn).

(** The notebook's variables that hold responses, what [pprint] has shown,
    and the GeoJSON files by name. *)
Record state : Type := State {
  vars : gmap string json;
  stdout : list shown;
  files : gmap string json
}.

Definition pprint (o : shown) : prog state unit :=
  modify (fun st => State (vars st) (stdout st ++ [o]) (files st)).

Definition assign (x : string) (v : json) : prog state unit :=
  modify (fun st => State (<[x := v]> (vars st)) (stdout st) (files st)).

Definition read (x : string) : prog state json := fun st =>
  match vars st !! x with
  | Some v => (st, Ok v)
  | None => (st, Raise (MkExn NameError ("name '" +:+ x +:+ "' is not defined")))
  end.

(** [open(file, 'w')] and the document written to it. *)
Definition write_file (file : string) (v : json) : prog state unit :=
  modify (fun st => State (vars st) (stdout st) (<[file := v]> (files st))).

(** [try: x = <request>; pprint(x) / except Exception as err: pprint(err)] *)
Definition request_cell (x : string) (answer : result json) : prog state unit :=
  try_except any_exception
    (response ← lift answer;
     _ ← assign x response;
     pprint (ShownJson response))
    (fun err => pprint (ShownExn err)).

(** [json.dump(x, open(file, 'w'))]: the variable is evaluated before the
    file is opened. *)
Definition dump_cell (x file : string) : prog state unit :=
  v ← read x; write_file file v.

Definition route_request : route_params :=
  RouteParams
    [[QArith_base.Qmake (-71099530) 1000000; QArith_base.Qmake 42379235 1000000];
     [QArith_base.Qmake (-71094038) 1000000; QArith_base.Qmake 42378790 1000000]]
    "foot-walking" "false" "geojson" "km".

Definition isochrone_request : isochrone_params :=
  IsochroneParams
    [[QArith_base.Qmake (-71094038) 1000000; QArith_base.Qmake 42378790 1000000]]
    "foot-walking" "time" [600%Z].

Definition route_cell (sv : services) : prog state unit :=
  request_cell "route" (ors_directions sv route_request).

Definition route_dump : prog state unit := dump_cell "route" "single_route.geojson".

Definition isochrone_cell (sv : services) : prog state unit :=
  request_cell "request" (ors_isochrones sv isochrone_request).

Definition isochrone_dump : prog state unit := dump_cell "request" "single_isochrone.geojson".

End Requests.

(** ** More sample inputs *)

Module MoreSamples.

(** A web whose detail pages cannot be requested, and one whose detail
    pages show the interests label with nothing after it. *)
Definition no_details : Scraping.services :=
  Scraping.Services
    (fun url => Raise (MkExn ServiceError "ConnectionError"))
    (fun content => Samples.bare_detail)
    (fun url path => Ok ())
    "/home/user/python-bs".

Definition lone_label : Html.node :=
  Html.Tag "html" [] []
    [Html.Tag "div" ["views-field"; "views-field-field-areas-of-interest"] []
       [Html.Tag "strong" ["views-label"; "views-label-field-areas-of-interest"] []
          [Html.Text "Areas of Interest: "];
        Html.Text " "]].

Definition lone_labels : Scraping.services :=
  Scraping.Services
    (fun url => Ok url)
    (fun content => lone_label)
    (fun url path => Ok ())
    "/home/user/python-bs".

(** A record block whose link has no address. *)
Definition unlinked : Html.node :=
  Html.Tag "div" ["views-row"; "row-people"] []
    [Html.Tag "div" ["views-field"; "views-field-name"] []
       [Html.Tag "span" ["field-content"] []
          [Html.Tag "a" ["username"] [("title", "View user profile.")]
             [Html.Text "Eran Ben-Joseph"]]];
     Samples.field "views-field-field-position-and-title-1" "Professor";
     Samples.field "views-field-field-position-and-title-2" "";
     Samples.field "views-field-field-other-division" ""].

(** A routing service that is down. *)
Definition down : Requests.services :=
  Requests.Services
    (fun p => Raise Samples.rate_limited)
    (fun p => Raise Samples.rate_limited).

End MoreSamples.

(** * Properties *)

(** ** Programs *)

Section ProgFacts.
Context {S : Type}.

Lemma for_each_cons {A : Type} (x : A) (l : list A) (body : A → prog S unit) (st : S) :
  for_each (x :: l) body st
  = match body x st with
    | (st', Ok _) => for_each l body st'
    | (st', Raise e) => (st', Raise e)
    end.
Proof. reflexivity. Qed.

(** A sequence ends where its first part raised, or continues from the
    state and value its first part returned. *)
Lemma bind_inv {A B : Type} (m : prog S A) (k : A → prog S B) (st st' : S) (r : result B) :
  (m ≫= k) st = (st', r) →
  (∃ e, m st = (st', Raise e) ∧ r = Raise e)
  ∨ (∃ st1 a, m st = (st1, Ok a) ∧ k a st1 = (st', r)).
Proof.
  unfold mbind, prog_bind. destruct (m st) as [st1 [a|e]]; intros Hrun.
  - right. by exists st1, a.
  - left. injection Hrun as <- <-. by exists e.
Qed.

Lemma lift_inv {A : Type} (x : result A) (st st' : S) (r : result A) :
  lift x st = (st', r) → st' = st ∧ x = r.
Proof. by intros [= <- <-]. Qed.

Lemma keeps_ret {A B : Type} (f : S → B) (a : A) : keeps f (mret a).
Proof. by intros st st' r [= <- <-]. Qed.

Lemma keeps_lift {A B : Type} (f : S → B) (x : result A) : keeps f (lift x).
Proof. by intros st st' r [= <- <-]. Qed.

Lemma keeps_modify {B : Type} (f : S → B) (g : S → S) :
  (∀ st, f (g st) = f st) → keeps f (modify g).
Proof. intros Hg st st' r [= <- <-]. apply Hg. Qed.

Lemma keeps_bind {A B C : Type} (f : S → C) (m : prog S A) (k : A → prog S B) :
  keeps f m → (∀ a, keeps f (k a)) → keeps f (m ≫= k).
Proof.
  intros Hm Hk st st' r Hrun.
  apply bind_inv in Hrun as [(e & Hrun & _)|(st1 & a & Hrun & Hrest)].
  - by apply Hm in Hrun.
  - apply Hm in Hrun. apply Hk in Hrest. congruence.
Qed.

Lemma keeps_try_except {A B : Type} (f : S → B) (caught : exn_class → bool)
    (body : prog S A) (handler : exn → prog S A) :
  keeps f body → (∀ e, keeps f (handler e)) → keeps f (try_except caught body handler).
Proof.
  intros Hbody Hhandler st st' r. unfold try_except.
  destruct (body st) as [st1 [a|e]] eqn:Hrun; apply Hbody in Hrun.
  - intros [= <- <-]. done.
  - destruct (caught (exn_cls e)).
    + intros Hh. apply Hhandler in Hh. congruence.
    + intros [= <- <-]. done.
Qed.

End ProgFacts.

(** ** The API key *)

Section EnvFacts.
Import Env.

Lemma dotenv_dict_snoc (bindings : list (string * string)) (k v : string) :
  dotenv_dict (bindings ++ [(k, v)]) = <[k := v]> (dotenv_dict bindings).
Proof. unfold dotenv_dict. by rewrite foldl_app. Qed.

Lemma dotenv_dict_unbound (bindings : list (string * string)) (name : string) :
  name ∉ bindings.*1 → dotenv_dict bindings !! name = None.
Proof.
  induction bindings as [|[k v] bindings IH] using rev_ind; intros Hname.
  - apply lookup_empty.
  - rewrite dotenv_dict_snoc. rewrite fmap_app in Hname. simpl in Hname.
    rewrite lookup_insert_ne.
    + apply IH. intros Hin. apply Hname. apply elem_of_app. by left.
    + intros ->. apply Hname. apply elem_of_app. right. by apply list_elem_of_singleton.
Qed.

(** The key follows the variable the code reads: a [.env] file that binds
    [ORSKEY] (last binding [k]) reaches the client when the process
    environment does not already have the variable. *)
Lemma client_key_of_variable_read (bindings : list (string * string))
    (environ : gmap string string) (k : string) :
  environ !! variable_read = None →
  key (make_client (Some (bindings ++ [(variable_read, k)])) environ) = Some k.
Proof.
  intros Henv. unfold make_client, getenv, load_dotenv. simpl.
  rewrite lookup_union_r by done.
  rewrite dotenv_dict_snoc. apply lookup_insert_eq.
Qed.

(** A variable of the process environment is never overridden by the file. *)
Lemma client_key_of_environ (dotenv : option (list (string * string)))
    (environ : gmap string string) (k : string) :
  environ !! variable_read = Some k →
  key (make_client dotenv environ) = Some k.
Proof.
  intros Henv. unfold make_client, getenv, load_dotenv. simpl.
  destruct dotenv as [bindings|]; [|done].
  by apply lookup_union_Some_l.
Qed.

(** C5 (as the code behaves): with the [.env] file the notebook tells the
    reader to write, [OSRKEY=k], and no [ORSKEY] in the process environment,
    the file does hold the key under the documented name, yet
    [os.getenv('ORSKEY')] is [None]: the client is built with [key=None],
    not with the key stored in the file. *)
Theorem client_key_misses_documented_variable (environ : gmap string string) (k : string) :
  environ !! variable_read = None →
  dotenv_dict [(documented_variable, k)] !! documented_variable = Some k
  ∧ key (make_client (Some [(documented_variable, k)]) environ) = None
  ∧ key (make_client (Some [(documented_variable, k)]) environ) ≠ Some k.
Proof.
  intros Henv.
  assert (Hnone : key (make_client (Some [(documented_variable, k)]) environ) = None).
  { unfold make_client, getenv, load_dotenv. simpl.
    rewrite lookup_union_r by done.
    apply dotenv_dict_unbound. simpl.
    intros Hin. apply list_elem_of_singleton in Hin. discriminate Hin. }
  split; [|split].
  - unfold dotenv_dict. simpl. apply lookup_insert_eq.
  - exact Hnone.
  - rewrite Hnone. discriminate.
Qed.

Lemma client_key_misses_documented_variable_witness :
  (∅ : gmap string string) !! variable_read = None
  ∧ key (make_client (Some [(documented_variable, "5b3ce3597851110001cf6248")]) ∅) ≠
      Some "5b3ce3597851110001cf6248".
Proof.
  split; [reflexivity|].
  apply (client_key_misses_documented_variable ∅ "5b3ce3597851110001cf6248").
  reflexivity.
Defined.

End EnvFacts.

(** ** The image file name *)

Section SlugFacts.
Import Slug.

Lemma string_app_nil (s : string) : "" +:+ s = s.
Proof. reflexivity. Qed.

Lemma string_app_cons (c : ascii) (s1 s2 : string) :
  String c s1 +:+ s2 = String c (s1 +:+ s2).
Proof. reflexivity. Qed.

Lemma string_app_assoc (s1 s2 s3 : string) : (s1 +:+ s2) +:+ s3 = s1 +:+ (s2 +:+ s3).
Proof.
  induction s1 as [|c s1 IH]; [done|].
  by rewrite !string_app_cons, IH.
Qed.

Lemma map_chars_app (f : ascii → string) (s1 s2 : string) :
  map_chars f (s1 +:+ s2) = map_chars f s1 +:+ map_chars f s2.
Proof.
  induction s1 as [|c s1 IH]; [done|].
  rewrite string_app_cons. simpl. by rewrite IH, string_app_assoc.
Qed.

Lemma lower_app (s1 s2 : string) : lower (s1 +:+ s2) = lower s1 +:+ lower s2.
Proof.
  induction s1 as [|c s1 IH]; [done|].
  rewrite string_app_cons. simpl. by rewrite IH.
Qed.

(** Replacing a one-character string works character by character. *)
Lemma replace_char (a : ascii) (new s : string) :
  replace (String a "") new s
  = map_chars (fun c => if Ascii.eqb a c then new else String c "") s.
Proof.
  unfold replace.
  induction s as [|c s IH]; [done|].
  simpl. destruct (ascii_dec a c) as [->|Hne].
  - rewrite Ascii.eqb_refl. rewrite <- IH. by destruct s.
  - apply Ascii.eqb_neq in Hne. rewrite Hne. by rewrite IH.
Qed.

Lemma lower_ascii_period (c : ascii) : Ascii.eqb "." (lower_ascii c) = Ascii.eqb c ".".
Proof. destruct c as [[] [] [] [] [] [] [] []]; reflexivity. Qed.

Lemma lower_ascii_small (c : ascii) : lower_ascii c = small_letter c.
Proof. destruct c as [[] [] [] [] [] [] [] []]; reflexivity. Qed.

Lemma slug_of_char (c : ascii) :
  map_chars (fun c' => if Ascii.eqb "." c' then "" else String c' "")
    (lower (if Ascii.eqb " " c then "_" else String c ""))
  = slug_char c.
Proof.
  unfold slug_char. rewrite (Ascii.eqb_sym c " ").
  destruct (Ascii.eqb " " c); [reflexivity|].
  cbn [lower map_chars]. rewrite lower_ascii_period, lower_ascii_small.
  destruct (Ascii.eqb c "."); reflexivity.
Qed.

(** The expression of the code, character by character. *)
Lemma image_file_stem (name : string) : image_file_of name = spec_slug name.
Proof.
  unfold image_file_of, spec_slug. f_equal.
  rewrite !replace_char.
  induction name as [|c name IH]; [done|].
  cbn [map_chars]. rewrite lower_app, map_chars_app, IH. f_equal.
  apply slug_of_char.
Qed.



End SlugFacts.

(** ** Reading and writing CSV rows *)

Section CsvFacts.
Import Csv.

Lemma dom_zip_dict (fieldnames cells : list string) :
  dom (zip_dict fieldnames cells) = list_to_set (zip fieldnames cells).*1.
Proof.
  unfold zip_dict.
  induction (zip fieldnames cells) as [|[k v] l IH] using rev_ind.
  - simpl. apply dom_empty_L.
  - rewrite foldl_app, fmap_app, list_to_set_app_L. simpl.
    rewrite dom_insert_L, IH, union_empty_r_L. apply union_comm_L.
Qed.

Lemma dom_fill (names : list string) (d : gmap string value) :
  dom (foldl (fun d k => <[k := VNone]> d) d names) = dom d ∪ list_to_set names.
Proof.
  revert d. induction names as [|k names IH]; intros d; simpl.
  - by rewrite union_empty_r_L.
  - rewrite IH, dom_insert_L.
    rewrite (union_comm_L {[k]} (dom d)). by rewrite union_assoc_L.
Qed.

Lemma fst_zip_short (fieldnames cells : list string) :
  (zip fieldnames cells).*1 = take (length cells) fieldnames.
Proof.
  rewrite <- (zip_with_take_l pair fieldnames cells).
  apply fst_zip. rewrite length_take. lia.
Qed.

(** A row read by [DictReader] has exactly the header's names as keys. *)
Lemma dom_dict_row (fieldnames cells : list string) :
  dom (fields (dict_row fieldnames cells)) = list_to_set fieldnames.
Proof.
  unfold dict_row.
  case_bool_decide as Hlong; [|case_bool_decide as Hshort]; simpl.
  - rewrite dom_zip_dict, fst_zip by lia. done.
  - rewrite dom_fill, dom_zip_dict, fst_zip_short, <- list_to_set_app_L.
    by rewrite take_drop.
  - rewrite dom_zip_dict, fst_zip by lia. done.
Qed.

(** It has the key [None] exactly when it is longer than the header. *)
Lemma rest_dict_row (fieldnames cells : list string) :
  length cells ≤ length fieldnames → rest (dict_row fieldnames cells) = None.
Proof.
  intros Hlen. unfold dict_row.
  case_bool_decide; [lia|]. by case_bool_decide.
Qed.

Lemma rest_dict_row_long (fieldnames cells : list string) :
  length fieldnames < length cells →
  rest (dict_row fieldnames cells) = Some (drop (length fieldnames) cells).
Proof. intros Hlen. unfold dict_row. by rewrite bool_decide_true. Qed.

Lemma getitem_dict_row (fieldnames cells : list string) (name : string) :
  name ∈ fieldnames → ∃ v, getitem (dict_row fieldnames cells) name = Ok v.
Proof.
  intros Hin. unfold getitem.
  assert (Hdom : name ∈ dom (fields (dict_row fieldnames cells))).
  { rewrite dom_dict_row. by apply elem_of_list_to_set. }
  apply elem_of_dom in Hdom as [v Hv]. exists v. by rewrite Hv.
Qed.

Lemma filter_none {A : Type} (P : A → Prop) `{!∀ x, Decision (P x)} (l : list A) :
  Forall (fun x => ¬ P x) l → filter P l = [].
Proof.
  induction 1 as [|x l Hx _ IH]; [done|].
  by rewrite filter_cons_False.
Qed.

Lemma elem_of_keys (d : gmap string value) (k : string) :
  k ∈ (map_to_list d).*1 → k ∈ dom d.
Proof.
  intros Hk. apply list_elem_of_fmap in Hk as [[k' v] [-> Hkv]].
  apply elem_of_map_to_list in Hkv. by apply elem_of_dom_2 in Hkv.
Qed.

(** [writerow] accepts a row whose keys are all field names. *)
Lemma wrong_fields_nil (field_names : list string) (line : row) :
  rest line = None →
  dom (fields line) ⊆ list_to_set field_names →
  wrong_fields field_names line = [].
Proof.
  intros Hrest Hdom. unfold wrong_fields. rewrite Hrest, app_nil_r.
  rewrite filter_none; [done|].
  apply Forall_forall. intros k Hk Hwrong. apply Hwrong.
  apply elem_of_keys, Hdom in Hk. by apply elem_of_list_to_set in Hk.
Qed.

(** It refuses a row that has the key [None]. *)
Lemma dict_to_list_rest (field_names : list string) (line : row) (extra : list string) :
  rest line = Some extra →
  dict_to_list field_names line
  = Raise (MkExn ValueError "dict contains fields not in fieldnames").
Proof.
  intros Hrest. unfold dict_to_list, wrong_fields. rewrite Hrest.
  by destruct (Some <$> _).
Qed.

Lemma dict_to_list_ok (field_names : list string) (line : row) :
  rest line = None →
  dom (fields line) ⊆ list_to_set field_names →
  dict_to_list field_names line
  = Ok ((fun k => cell_text (default (VStr "") (fields line !! k))) <$> field_names).
Proof.
  intros Hrest Hdom. unfold dict_to_list. by rewrite wrong_fields_nil.
Qed.

(** Whatever was written for a row has one cell per field name. *)
Lemma dict_to_list_cells (field_names : list string) (line : row) (cells : list string) :
  dict_to_list field_names line = Ok cells →
  cells = (fun k => cell_text (default (VStr "") (fields line !! k))) <$> field_names.
Proof.
  unfold dict_to_list. destruct (wrong_fields field_names line); [|done].
  by intros [= <-].
Qed.

End CsvFacts.

(** ** The batch isochrone cell *)

Section IsochroneFacts.
Import Csv Isochrone.

Variable sv : services.

(** The four ways one iteration can go. *)

Lemma process_line_no_params (field_names : list string) (line : row) (st : state) (e : exn) :
  line_params line = Raise e →
  process_line sv field_names line st = (st, Raise e).
Proof. intros Hp. unfold process_line, lift, mbind, prog_bind. by rewrite Hp. Qed.

Lemma process_line_failed (field_names : list string) (line : row) (st : state)
    (p : params) (err : exn) :
  line_params line = Ok p →
  line_wkt sv line = Raise err →
  process_line sv field_names line st
  = (State (outcsv st) (stdout st ++ [PPrinted err]) (requests st ++ [p]) (slept st), Ok ()).
Proof.
  intros Hp Hwkt. unfold line_wkt in Hwkt. rewrite Hp in Hwkt. simpl in Hwkt.
  unfold process_line, lift, try_except, isochrones, mbind, prog_bind at 1.
  rewrite Hp. unfold mbind, prog_bind.
  destruct (ors_isochrones sv p) as [request|e]; simpl in *.
  - rewrite Hwkt. reflexivity.
  - by injection Hwkt as ->.
Qed.

Lemma process_line_refused (field_names : list string) (line : row) (st : state)
    (p : params) (wkt : string) (err : exn) :
  line_params line = Ok p →
  line_wkt sv line = Ok wkt →
  dict_to_list field_names (setitem line "geom" (VStr wkt)) = Raise err →
  process_line sv field_names line st
  = (State (outcsv st) (stdout st ++ [PPrinted err]) (requests st ++ [p]) (slept st + 2),
     Ok ()).
Proof.
  intros Hp Hwkt Hrow. unfold line_wkt in Hwkt. rewrite Hp in Hwkt. simpl in Hwkt.
  unfold process_line, lift, try_except, isochrones, writerow, lift, mbind, prog_bind at 1.
  rewrite Hp. unfold mbind, prog_bind.
  destruct (ors_isochrones sv p) as [request|e]; simpl in *; [|done].
  rewrite Hwkt. simpl. rewrite Hrow. reflexivity.
Qed.

Lemma process_line_written (field_names : list string) (line : row) (st : state)
    (p : params) (wkt : string) (cells : list string) :
  line_params line = Ok p →
  line_wkt sv line = Ok wkt →
  dict_to_list field_names (setitem line "geom" (VStr wkt)) = Ok cells →
  process_line sv field_names line st
  = (State (Some (default [] (outcsv st) ++ [cells])) (stdout st) (requests st ++ [p])
       (slept st + 2),
     Ok ()).
Proof.
  intros Hp Hwkt Hrow. unfold line_wkt in Hwkt. rewrite Hp in Hwkt. simpl in Hwkt.
  unfold process_line, lift, try_except, isochrones, writerow, lift, mbind, prog_bind at 1.
  rewrite Hp. unfold mbind, prog_bind.
  destruct (ors_isochrones sv p) as [request|e]; simpl in *; [|done].
  rewrite Hwkt. simpl. rewrite Hrow. reflexivity.
Qed.

Lemma line_failed_true (line : row) :
  line_failed sv line = true ↔ ∃ err, line_wkt sv line = Raise err.
Proof.
  unfold line_failed. destruct (line_wkt sv line) as [wkt|err]; simpl; split.
  - done.
  - by intros [? ?].
  - eauto.
  - done.
Qed.

Lemma line_failed_false (line : row) :
  line_failed sv line = false ↔ ∃ wkt, line_wkt sv line = Ok wkt.
Proof.
  unfold line_failed. destruct (line_wkt sv line) as [wkt|err]; simpl; split.
  - eauto.
  - done.
  - done.
  - by intros [? ?].
Qed.

(** The loop over writable lines: it runs to its end, sends one request
    per line, and appends the records of the lines that did not fail, in
    order. *)
Lemma for_each_writable (field_names : list string) (lines : list row) :
  Forall (writable field_names) lines →
  ∀ (st : state) (written : list (list string)),
    outcsv st = Some written →
    ∃ st' rows,
      for_each lines (process_line sv field_names) st = (st', Ok ())
      ∧ outcsv st' = Some (written ++ rows)
      ∧ Forall2 (is_row_of sv field_names)
          (filter (fun l => line_failed sv l = false) lines) rows
      ∧ length rows + length (filter (fun l => line_failed sv l = true) lines)
        = length lines
      ∧ length (requests st') = length (requests st) + length lines.
Proof.
  induction 1 as [|line lines [[p Hp] Hcells] _ IH]; intros st written Hout.
  - exists st, []. rewrite app_nil_r. simpl. repeat split; [done|constructor|lia].
  - rewrite for_each_cons.
    destruct (line_wkt sv line) as [wkt|err] eqn:Hwkt.
    + destruct (Hcells wkt) as [cells Hrow].
      rewrite (process_line_written _ _ _ _ _ _ Hp Hwkt Hrow). cbv beta iota.
      destruct (IH (State (Some (default [] (outcsv st) ++ [cells])) (stdout st)
                      (requests st ++ [p]) (slept st + 2)) (written ++ [cells]))
        as (st' & rows & Hrun & Hout' & Hrows & Hlen & Hreq).
      { simpl. by rewrite Hout. }
      exists st', (cells :: rows). rewrite Hrun.
      assert (Hok : line_failed sv line = false) by (apply line_failed_false; eauto).
      rewrite filter_cons_True by done.
      rewrite filter_cons_False by (rewrite Hok; done).
      repeat split.
      * rewrite Hout'. simpl. by rewrite <- app_assoc.
      * constructor; [by exists wkt|done].
      * simpl. lia.
      * rewrite Hreq. simpl. rewrite length_app. simpl. lia.
    + rewrite (process_line_failed _ _ _ _ _ Hp Hwkt). cbv beta iota.
      destruct (IH (State (outcsv st) (stdout st ++ [PPrinted err]) (requests st ++ [p])
                      (slept st)) written)
        as (st' & rows & Hrun & Hout' & Hrows & Hlen & Hreq).
      { exact Hout. }
      exists st', rows. rewrite Hrun.
      assert (Hbad : line_failed sv line = true) by (apply line_failed_true; eauto).
      rewrite filter_cons_False by (rewrite Hbad; done).
      rewrite filter_cons_True by done.
      repeat split; [done|done|simpl; lia|].
      rewrite Hreq. simpl. rewrite length_app. simpl. lia.
Qed.

(** The lines of a valid file are writable under the header extended
    with [geom]. *)
Lemma valid_csv_writable (header : list string) (data : list (list string)) :
  valid_csv (header :: data) = true →
  Forall (writable (header ++ ["geom"])) (dict_rows (header :: data)).
Proof.
  unfold valid_csv. intros Hvalid.
  apply andb_prop in Hvalid as [Hxy Hdata]. apply andb_prop in Hxy as [Hx Hy].
  apply bool_decide_eq_true in Hx, Hy.
  rewrite forallb_forall in Hdata.
  unfold dict_rows. apply Forall_fmap, Forall_forall. intros cells Hin.
  apply list_elem_of_filter in Hin as [_ Hin].
  assert (Hlen : length cells ≤ length header).
  { apply list_elem_of_In, Hdata in Hin. by apply bool_decide_eq_true in Hin. }
  split.
  - destruct (getitem_dict_row header cells "X" Hx) as [x Hgx].
    destruct (getitem_dict_row header cells "Y" Hy) as [y Hgy].
    eexists. unfold line_params. rewrite Hgx, Hgy. reflexivity.
  - intros wkt. eexists. apply dict_to_list_ok; simpl.
    + by apply rest_dict_row.
    + rewrite dom_insert_L, dom_dict_row, list_to_set_app_L. simpl.
      by rewrite union_empty_r_L, union_comm_L.
Qed.

(** C1: for a valid input file the cell runs to its end, and the data
    rows of the output are, one for one and in order, the records of the
    input rows whose request and conversion did not raise; so their number
    is the number of input rows minus the number of rows that raised. *)
Theorem batch_output_row_count (records : list (list string)) :
  valid_csv records = true →
  ∃ st header rows,
    batch sv (Some records) initial = (st, Ok ())
    ∧ outcsv st = Some (header :: rows)
    ∧ length rows
      = length (dict_rows records)
        - length (filter (fun l => line_failed sv l = true) (dict_rows records))
    ∧ Forall2 (is_row_of sv header)
        (filter (fun l => line_failed sv l = false) (dict_rows records)) rows.
Proof.
  intros Hvalid. destruct records as [|header data]; [done|].
  pose proof (valid_csv_writable header data Hvalid) as Hlines.
  destruct (for_each_writable (header ++ ["geom"]) _ Hlines
              (State (Some [header ++ ["geom"]]) [] [] 0) [header ++ ["geom"]] eq_refl)
    as (st & rows & Hrun & Hout & Hrows & Hlen & _).
  exists st, (header ++ ["geom"]), rows.
  repeat split; [|done|lia|done].
  unfold batch, try_except, open_read, open_write, writeheader, write_record, modify.
  unfold mbind, prog_bind, mret, prog_ret. simpl.
  unfold mbind, prog_bind, mret, prog_ret in Hrun. simpl in Hrun.
  by rewrite Hrun.
Qed.

(** C8: when the request for an input row raises, the iteration prints the
    error and ends normally; it has sent that one request and no other,
    has written nothing, has not slept, and the loop goes on with the
    next row from there. *)
Theorem failed_request_is_skipped (field_names : list string) (line : row)
    (next_lines : list row) (p : params) (err : exn) (st : state) :
  line_params line = Ok p →
  ors_isochrones sv p = Raise err →
  let st1 := State (outcsv st) (stdout st ++ [PPrinted err]) (requests st ++ [p]) (slept st) in
  process_line sv field_names line st = (st1, Ok ())
  ∧ for_each (line :: next_lines) (process_line sv field_names) st
    = for_each next_lines (process_line sv field_names) st1.
Proof.
  intros Hp Herr st1.
  assert (Hwkt : line_wkt sv line = Raise err).
  { unfold line_wkt. rewrite Hp. simpl. by rewrite Herr. }
  assert (Hstep : process_line sv field_names line st = (st1, Ok ()))
    by apply (process_line_failed _ _ _ _ _ Hp Hwkt).
  split; [exact Hstep|].
  rewrite for_each_cons, Hstep. reflexivity.
Qed.

(** One iteration either leaves the output file as it was, or appends the
    record of its line; the latter only when the request and the
    conversion succeeded. *)
Lemma process_line_outcsv (field_names : list string) (line : row) (st st' : state)
    (r : result ()) :
  process_line sv field_names line st = (st', r) →
  outcsv st' = outcsv st
  ∨ ∃ cells, is_row_of sv field_names line cells
             ∧ outcsv st' = Some (default [] (outcsv st) ++ [cells]).
Proof.
  intros Hrun.
  destruct (line_params line) as [p|e] eqn:Hp.
  - destruct (line_wkt sv line) as [wkt|err] eqn:Hwkt.
    + destruct (dict_to_list field_names (setitem line "geom" (VStr wkt)))
        as [cells|err] eqn:Hrow.
      * rewrite (process_line_written _ _ _ _ _ _ Hp Hwkt Hrow) in Hrun.
        injection Hrun as <- <-. right. exists cells. split; [by exists wkt|done].
      * rewrite (process_line_refused _ _ _ _ _ _ Hp Hwkt Hrow) in Hrun.
        injection Hrun as <- <-. by left.
    + rewrite (process_line_failed _ _ _ _ _ Hp Hwkt) in Hrun.
      injection Hrun as <- <-. by left.
  - rewrite (process_line_no_params _ _ _ _ Hp) in Hrun.
    injection Hrun as <- <-. by left.
Qed.

Lemma process_line_failed_outcsv (field_names : list string) (line : row) (st : state) :
  line_failed sv line = true →
  outcsv (process_line sv field_names line st).1 = outcsv st.
Proof.
  intros Hbad.
  destruct (process_line sv field_names line st) as [st' r] eqn:Hrun. simpl.
  apply process_line_outcsv in Hrun as [Hsame|(cells & (wkt & Hwkt & _) & _)]; [done|].
  apply line_failed_true in Hbad as [err Herr]. congruence.
Qed.

(** However the loop ends, what it has appended to the file are records
    of some of its lines. *)
Lemma for_each_rows (field_names : list string) (lines : list row) :
  ∀ (st st' : state) (r : result ()) (written : list (list string)),
    for_each lines (process_line sv field_names) st = (st', r) →
    outcsv st = Some written →
    ∃ rows, outcsv st' = Some (written ++ rows)
            ∧ Forall (fun cells => ∃ line, line ∈ lines
                                           ∧ is_row_of sv field_names line cells) rows.
Proof.
  induction lines as [|line lines IH]; intros st st' r written Hrun Hout.
  - injection Hrun as <- <-. exists []. by rewrite app_nil_r.
  - rewrite for_each_cons in Hrun.
    destruct (process_line sv field_names line st) as [st1 r1] eqn:Hstep.
    assert (Hout1 : ∃ rows1, outcsv st1 = Some (written ++ rows1)
              ∧ Forall (fun cells => ∃ l, l ∈ line :: lines
                                          ∧ is_row_of sv field_names l cells) rows1).
    { apply process_line_outcsv in Hstep as [Hsame|(cells & Hcells & Happ)].
      - exists []. rewrite app_nil_r. split; [congruence|constructor].
      - exists [cells]. rewrite Happ, Hout. split; [done|].
        constructor; [|constructor]. exists line. split; [left|done]. }
    destruct Hout1 as (rows1 & Hout1 & Hrows1).
    destruct r1 as [[]|e].
    + destruct (IH _ _ _ _ Hrun Hout1) as (rows & Hout' & Hrows).
      exists (rows1 ++ rows). split; [by rewrite app_assoc|].
      apply Forall_app. split; [done|].
      eapply Forall_impl; [exact Hrows|].
      intros cells (l & Hl & Hcells). exists l. split; [by right|done].
    + injection Hrun as <- <-. by exists rows1.
Qed.

Lemma line_wkt_shape (line : row) (wkt : string) :
  line_wkt sv line = Ok wkt → ∃ geometry, shape_wkt sv geometry = Ok wkt.
Proof.
  unfold line_wkt, geometry_wkt.
  destruct (line_params line) as [p|]; [|done]. simpl.
  destruct (ors_isochrones sv p) as [request|]; [|done]. simpl.
  destruct (subscript_key request "features") as [features|]; [|done]. simpl.
  destruct (subscript_index features 0) as [feature|]; [|done]. simpl.
  destruct (subscript_key feature "geometry") as [geometry|]; [|done]. simpl.
  eauto.
Qed.

(** The last cell of a record written under a header that ends with
    [geom] is the WKT text. *)
Lemma is_row_of_geom (header : list string) (line : row) (cells : list string) :
  is_row_of sv (header ++ ["geom"]) line cells →
  ∃ wkt, line_wkt sv line = Ok wkt ∧ last cells = Some wkt.
Proof.
  intros (wkt & Hwkt & Hrow). exists wkt. split; [done|].
  apply dict_to_list_cells in Hrow as ->.
  rewrite fmap_snoc, last_snoc. simpl.
  by rewrite lookup_insert_eq.
Qed.

(** C10: whatever the input and however the cell ends, every data row of
    the output file is the record of an input row whose request and
    conversion both succeeded, and its last cell, the [geom] column, is the
    WKT text obtained for that row, which is not empty (shapely never
    renders a geometry as the empty string). An iteration that appends to
    the file does so with such a record, and an iteration whose request or
    conversion raised leaves the file as it was. *)
Theorem written_rows_have_geometry (infile : option (list (list string)))
    (st : state) (res : result ()) :
  (∀ geometry wkt, shape_wkt sv geometry = Ok wkt → wkt ≠ "") →
  batch sv infile initial = (st, res) →
  (∀ header rows, outcsv st = Some (header :: rows) →
     Forall (fun cells => ∃ line wkt, line ∈ lines_of infile
                                      ∧ line_wkt sv line = Ok wkt
                                      ∧ last cells = Some wkt
                                      ∧ wkt ≠ "") rows)
  ∧ (∀ field_names line st0 st1 r,
       process_line sv field_names line st0 = (st1, r) →
       outcsv st1 = outcsv st0
       ∨ ∃ cells, is_row_of sv field_names line cells
                  ∧ outcsv st1 = Some (default [] (outcsv st0) ++ [cells]))
  ∧ (∀ field_names line st0,
       line_failed sv line = true →
       outcsv (process_line sv field_names line st0).1 = outcsv st0).
Proof.
  intros Hshape Hrun.
  split; [|split; [apply process_line_outcsv|apply process_line_failed_outcsv]].
  intros header rows Hout.
  destruct infile as [[|names data]|].
  - (* a file with no record: the header is never written *)
    injection Hrun as <- <-. discriminate Hout.
  - unfold batch, try_except, open_read, open_write, writeheader, write_record, modify
      in Hrun.
    unfold mbind, prog_bind, mret, prog_ret in Hrun. simpl in Hrun.
    destruct (for_each _ _ _) as [st2 r2] eqn:Hloop in Hrun.
    unfold mbind, prog_bind, mret, prog_ret in Hloop. simpl in Hloop.
    apply (for_each_rows _ _ _ _ _ [names ++ ["geom"]]) in Hloop as (rows' & Hout2 & Hrows);
      [|done].
    assert (Hst : outcsv st = outcsv st2).
    { destruct r2 as [[]|e]; [by injection Hrun as <- <-|].
      destruct (only FileNotFoundError (exn_cls e)); by injection Hrun as <- <-. }
    rewrite Hst, Hout2 in Hout. injection Hout as <- <-.
    eapply Forall_impl; [exact Hrows|].
    intros cells (line & Hline & Hcells).
    apply is_row_of_geom in Hcells as (wkt & Hwkt & Hlast).
    exists line, wkt. repeat split; [done|done|done|].
    destruct (line_wkt_shape _ _ Hwkt) as [geometry Hgeom]. by eapply Hshape.
  - (* no input file: the output file is not even opened *)
    injection Hrun as <- <-. discriminate Hout.
Qed.

End IsochroneFacts.

(** ** The faculty scraper *)

Section ScrapingFacts.
Import Html Scraping.

Variable sv : services.

(** Only [writerow] touches the file. *)

Lemma keeps_csv_print (s : string) : keeps faculty_csv (print s).
Proof. by apply keeps_modify. Qed.

Lemma keeps_csv_assign (x : string) (v : value) : keeps faculty_csv (assign x v).
Proof. by apply keeps_modify. Qed.

Lemma keeps_csv_read (x : string) : keeps faculty_csv (read x).
Proof. intros st st' r. unfold read. by destruct (vars st !! x); intros [= <- <-]. Qed.

Lemma keeps_csv_download (url : option string) (path : string) :
  keeps faculty_csv (download sv url path).
Proof. by intros st st' r [= <- <-]. Qed.

Lemma keeps_csv_fetch_image (name : string) (person : node) :
  keeps faculty_csv (fetch_image sv name person).
Proof.
  unfold fetch_image. destruct (find "img" None person) as [[img siblings]|].
  - apply keeps_bind; [apply keeps_csv_assign|intros _].
    apply keeps_try_except; [apply keeps_csv_download|intros err].
    apply keeps_bind; [apply keeps_lift|intros msg].
    apply keeps_bind; [apply keeps_csv_print|intros _].
    apply keeps_csv_assign.
  - apply keeps_ret.
Qed.

Lemma keeps_csv_fetch_details (href : value) : keeps faculty_csv (fetch_details sv href).
Proof.
  unfold fetch_details. destruct (truthy href); [|apply keeps_ret].
  apply keeps_bind; [apply keeps_lift|intros person_soup].
  do 3 (apply keeps_bind; [apply keeps_csv_assign|intros _]).
  apply keeps_bind; [apply keeps_lift|intros interests]. apply keeps_csv_assign.
Qed.

(** Only the image block assigns [image_file]. *)

Lemma keeps_image_file_print (s : string) : keeps image_file_var (print s).
Proof. by apply keeps_modify. Qed.

Lemma keeps_image_file_assign (x : string) (v : value) :
  x ≠ "image_file" → keeps image_file_var (assign x v).
Proof.
  intros Hx. apply keeps_modify. intros st. unfold image_file_var. simpl.
  by rewrite lookup_insert_ne.
Qed.

Lemma keeps_image_file_fetch_details (href : value) :
  keeps image_file_var (fetch_details sv href).
Proof.
  unfold fetch_details. destruct (truthy href); [|apply keeps_ret].
  apply keeps_bind; [apply keeps_lift|intros person_soup].
  do 3 (apply keeps_bind; [by apply keeps_image_file_assign|intros _]).
  apply keeps_bind; [apply keeps_lift|intros interests].
  by apply keeps_image_file_assign.
Qed.

Lemma read_inv (x : string) (st st' : state) (r : result value) :
  read x st = (st', r) →
  st' = st
  ∧ match r with
    | Ok v => vars st !! x = Some v
    | Raise e => vars st !! x = None
    end.
Proof. unfold read. by destruct (vars st !! x); intros [= <- <-]. Qed.

(** The writer accepts the row the cell builds, whatever its values. *)
Lemma dict_to_list_row (v0 v1 v2 v3 v4 v5 v6 v7 v8 v9 : value) :
  Csv.dict_to_list field_names
    (Csv.Row (list_to_map
       [("name", v0); ("href", v1); ("pos_1", v2); ("pos_2", v3); ("other_affil", v4);
        ("bio", v5); ("office", v6); ("email", v7); ("interests", v8);
        ("image_file", v9)]) None)
  = Ok (cell_text <$> [v0; v1; v2; v3; v4; v5; v6; v7; v8; v9]).
Proof. reflexivity. Qed.

(** What the detail block binds when it succeeds. *)
Lemma fetch_details_inv (h : string) (st st' : state) :
  fetch_details sv (VStr ("http://dusp.mit.edu" +:+ h)) st = (st', Ok ()) →
  ∃ person_soup interests,
    fetch_soup sv (VStr ("http://dusp.mit.edu" +:+ h)) = Ok person_soup
    ∧ interests_text person_soup = Ok interests
    ∧ vars st'
      = <["interests" := interests]>
          (<["email" := optional_text "div" "views-field views-field-field-secondary-email"
                          person_soup]>
             (<["office" := optional_text "div" "views-field views-field-field-office"
                              person_soup]>
                (<["bio" := optional_text "div" "pane-user-field-bio" person_soup]>
                   (vars st)))).
Proof.
  unfold fetch_details. change (truthy _) with true. cbv iota.
  intros H.
  apply bind_inv in H as [(e & _ & [=])|(st1 & person_soup & Hm & H)].
  apply lift_inv in Hm as [-> Hsoup].
  unfold assign, modify, lift, mbind, prog_bind in H.
  cbn [faculty_csv stdout downloads naps vars] in H.
  destruct (interests_text person_soup) as [interests|e] eqn:Hinterests; [|done].
  injection H as <-. by exists person_soup, interests.
Qed.

(** One iteration: when it raises, the file is as it was; when it ends
    normally, every step before the row succeeded and exactly one record
    was appended, made of what those steps found. *)
Lemma scrape_person_inv (person : node) (st st' : state) (r : result ()) :
  scrape_person sv person st = (st', r) →
  match r with
  | Raise e => faculty_csv st' = faculty_csv st
  | Ok _ =>
      ∃ name_href siblings href pos_1 pos_2 other_affil person_soup interests image_file,
        find "a" (Some "username") person = Some (name_href, siblings)
        ∧ get "href" name_href = Some href
        ∧ find_text "div" "views-field-field-position-and-title-1" person = Ok pos_1
        ∧ find_text "div" "views-field-field-position-and-title-2" person = Ok pos_2
        ∧ find_text "div" "views-field-field-other-division" person = Ok other_affil
        ∧ fetch_soup sv (VStr ("http://dusp.mit.edu" +:+ href)) = Ok person_soup
        ∧ interests_text person_soup = Ok interests
        ∧ image_file_var st' = Some image_file
        ∧ (find "img" None person = None → image_file_var st = Some image_file)
        ∧ faculty_csv st'
          = faculty_csv st
            ++ [[get_text name_href; "http://dusp.mit.edu" +:+ href; pos_1; pos_2;
                 other_affil;
                 cell_text (optional_text "div" "pane-user-field-bio" person_soup);
                 cell_text (optional_text "div" "views-field views-field-field-office"
                              person_soup);
                 cell_text (optional_text "div"
                              "views-field views-field-field-secondary-email" person_soup);
                 cell_text interests;
                 cell_text image_file]]
  end.
Proof.
  intros H. unfold scrape_person in H.
  (* name_href = person.find('a', class_='username'); name = name_href.get_text() *)
  apply bind_inv in H as [(e & Hm & ->)|(st1 & [name_href siblings] & Hm & H)];
    apply lift_inv in Hm as [-> Hname_href]; [done|].
  cbv zeta in H. cbn [fst] in H.
  unfold deref in Hname_href.
  destruct (find "a" (Some "username") person) as [found|] eqn:Hfind; [|done].
  injection Hname_href as ->.
  (* print *)
  apply bind_inv in H as [(e & Hm & ->)|(st1 & [] & Hm & H)];
    pose proof (keeps_csv_print _ _ _ _ Hm) as Hcsv1;
    pose proof (keeps_image_file_print _ _ _ _ Hm) as Himg1; clear Hm; [done|].
  (* href *)
  apply bind_inv in H as [(e & Hm & ->)|(st2 & href & Hm & H)];
    apply lift_inv in Hm as [-> Hhref]; [done|].
  destruct (get "href" name_href) as [h|] eqn:Hget; [|done].
  injection Hhref as <-.
  (* the image block *)
  apply bind_inv in H as [(e & Hi & ->)|(st2 & [] & Hi & H)];
    pose proof (keeps_csv_fetch_image _ _ _ _ _ Hi) as Hcsv2; [congruence|].
  (* the three listing fields *)
  apply bind_inv in H as [(e & Hm & ->)|(st3 & pos_1 & Hm & H)];
    apply lift_inv in Hm as [-> Hpos_1]; [congruence|].
  apply bind_inv in H as [(e & Hm' & ->)|(st3 & pos_2 & Hm' & H)];
    apply lift_inv in Hm' as [-> Hpos_2]; [congruence|].
  apply bind_inv in H as [(e & Hm' & ->)|(st3 & other_affil & Hm' & H)];
    apply lift_inv in Hm' as [-> Hother]; [congruence|].
  (* the detail block *)
  apply bind_inv in H as [(e & Hd & ->)|(st3 & [] & Hd & H)];
    pose proof (keeps_csv_fetch_details _ _ _ _ Hd) as Hcsv3;
    pose proof (keeps_image_file_fetch_details _ _ _ _ Hd) as Himg3; [congruence|].
  apply fetch_details_inv in Hd as (person_soup & interests & Hsoup & Hinterests & Hvars).
  (* the row *)
  apply bind_inv in H as [(e & Hr & ->)|(st4 & bio & Hr & H)];
    apply read_inv in Hr as [-> Hbio]; [congruence|].
  apply bind_inv in H as [(e & Hr & ->)|(st4 & office & Hr & H)];
    apply read_inv in Hr as [-> Hoffice]; [congruence|].
  apply bind_inv in H as [(e & Hr & ->)|(st4 & email & Hr & H)];
    apply read_inv in Hr as [-> Hemail]; [congruence|].
  apply bind_inv in H as [(e & Hr & ->)|(st4 & interests' & Hr & H)];
    apply read_inv in Hr as [-> Hinterests']; [congruence|].
  apply bind_inv in H as [(e & Hr & ->)|(st4 & image_file & Hr & H)];
    apply read_inv in Hr as [-> Himage_file]; [congruence|].
  cbv zeta in H. unfold writerow in H. rewrite dict_to_list_row in H.
  unfold lift, write_record, sleep, modify, mbind, prog_bind in H.
  injection H as <- <-.
  rewrite Hvars in Hbio, Hoffice, Hemail, Hinterests'.
  rewrite lookup_insert_eq in Hinterests'. injection Hinterests' as <-.
  rewrite lookup_insert_ne, lookup_insert_eq in Hemail by done. injection Hemail as <-.
  rewrite !lookup_insert_ne, lookup_insert_eq in Hoffice by done. injection Hoffice as <-.
  rewrite !lookup_insert_ne, lookup_insert_eq in Hbio by done. injection Hbio as <-.
  exists name_href, siblings, h, pos_1, pos_2, other_affil, person_soup, interests, image_file.
  repeat split; try done.
  - intros Hnoimg. unfold fetch_image in Hi. rewrite Hnoimg in Hi. injection Hi as <-.
    by rewrite <- Himg1, <- Himg3.
  - cbn [faculty_csv]. by rewrite Hcsv3, Hcsv2, Hcsv1.
Qed.





(** The detail parser guards each field: an absent one is [None]. *)
Lemma optional_text_absent (name c : string) (soup : node) :
  find name (Some c) soup = None → optional_text name c soup = VNone.
Proof. intros Hfind. unfold optional_text. by rewrite Hfind. Qed.

(** C2 (as the code behaves): the listing parser calls [get_text] on the
    result of [find] with no guard. For a record block that lacks one of
    the three label/value fields the extraction of that field raises
    AttributeError, the iteration raises and writes no record. *)
Theorem absent_listing_field_raises (person : node) (c : string) (st : state) :
  c ∈ listing_fields →
  find "div" (Some c) person = None →
  find_text "div" c person
  = Raise (MkExn AttributeError "'NoneType' object has no attribute 'get_text'")
  ∧ (∃ e, (scrape_person sv person st).2 = Raise e)
  ∧ faculty_csv (scrape_person sv person st).1 = faculty_csv st.
Proof.
  intros Hc Hfind.
  assert (Htext : find_text "div" c person
                  = Raise (MkExn AttributeError "'NoneType' object has no attribute 'get_text'")).
  { unfold find_text. by rewrite Hfind. }
  split; [exact Htext|].
  destruct (scrape_person sv person st) as [st' [[]|e]] eqn:Hrun;
    apply scrape_person_inv in Hrun; cbn [fst snd].
  - destruct Hrun as (name_href & siblings & h & pos_1 & pos_2 & other_affil
                      & person_soup & interests & image_file
                      & _ & _ & Hpos_1 & Hpos_2 & Hother & _).
    unfold listing_fields in Hc.
    repeat (apply elem_of_cons in Hc as [->|Hc]; [congruence|]).
    by apply elem_of_nil in Hc.
  - split; [by exists e|done].
Qed.

(** C3 (as the code behaves): when the download of a record's image
    raises, the handler evaluates [err + '---Could not download faculty
    photo.'], which is itself a TypeError. The iteration ends with that
    exception, and so does the loop: no record is written for this person
    nor for any later one, and [image_file] still holds the file name, not
    the error. *)
Theorem failed_download_aborts (person : node) (next_people : list node) (st : state)
    (name_href img : node) (siblings img_siblings : list node) (h : string) (err : exn) :
  find "a" (Some "username") person = Some (name_href, siblings) →
  get "href" name_href = Some h →
  find "img" None person = Some (img, img_siblings) →
  wget_download sv (get "src" img)
    ((getcwd sv +:+ "/images/") +:+ Slug.image_file_of (get_text name_href)) = Raise err →
  let st' :=
    State (faculty_csv st)
      (stdout st ++ ["Scraping " +:+ get_text name_href +:+ "..."])
      (downloads st
       ++ [(get "src" img,
            (getcwd sv +:+ "/images/") +:+ Slug.image_file_of (get_text name_href))])
      (naps st)
      (<["image_file" := VStr (Slug.image_file_of (get_text name_href))]> (vars st)) in
  let type_error := MkExn TypeError "unsupported operand type(s) for +" in
  scrape_person sv person st = (st', Raise type_error)
  ∧ for_each (person :: next_people) (scrape_person sv) st = (st', Raise type_error)
  ∧ faculty_csv st' = faculty_csv st
  ∧ image_file_var st' = Some (VStr (Slug.image_file_of (get_text name_href))).
Proof.
  intros Hfind Hget Himg Hwget st' type_error.
  assert (Hstep : scrape_person sv person st = (st', Raise type_error)).
  { unfold scrape_person, fetch_image, try_except, download, print, assign, modify, lift,
      mbind, prog_bind.
    rewrite Hfind, Himg. cbn [deref fst]. rewrite Hget. cbn [from_option add].
    cbn [faculty_csv stdout downloads naps vars]. rewrite Hwget. reflexivity. }
  split; [exact Hstep|]. split; [by rewrite for_each_cons, Hstep|].
  split; [reflexivity|].
  unfold image_file_var, st'. cbn [vars]. apply lookup_insert_eq.
Qed.

(** C4 (as the code behaves): [image_file] is assigned only inside
    [if image_url:]. For a record block with no [img] element that is
    processed to its end, the [image_file] column of its record holds the
    value the variable had before the iteration, that is the file name of
    the last earlier record that had an image; the other nine columns are
    this record's own. *)
Theorem missing_image_reuses_previous_file (person : node) (st st' : state) :
  find "img" None person = None →
  scrape_person sv person st = (st', Ok ()) →
  ∃ previous cells,
    image_file_var st = Some previous
    ∧ faculty_csv st' = faculty_csv st ++ [cells]
    ∧ length cells = length field_names
    ∧ column "name" cells = record_name person
    ∧ column "image_file" cells = Some (cell_text previous).
Proof.
  intros Hnoimg Hrun. apply scrape_person_inv in Hrun.
  destruct Hrun as (name_href & siblings & h & pos_1 & pos_2 & other_affil
                    & person_soup & interests & image_file
                    & Hfind & _ & _ & _ & _ & _ & _ & _ & Hprev & Hcsv).
  exists image_file. eexists. split; [by apply Hprev|]. split; [exact Hcsv|].
  split; [reflexivity|]. split; [|reflexivity].
  unfold record_name. by rewrite Hfind.
Qed.

(** With [image_file] still unbound (the first record of a fresh kernel),
    such a record block makes the iteration raise instead. *)
Lemma missing_image_unbound (person : node) (st : state) :
  find "img" None person = None →
  image_file_var st = None →
  ∃ e, (scrape_person sv person st).2 = Raise e.
Proof.
  intros Hnoimg Hunbound.
  destruct (scrape_person sv person st) as [st' [[]|e]] eqn:Hrun; [|by exists e].
  apply scrape_person_inv in Hrun.
  destruct Hrun as (? & ? & ? & ? & ? & ? & ? & ? & image_file
                    & _ & _ & _ & _ & _ & _ & _ & _ & Hprev & _).
  specialize (Hprev Hnoimg). congruence.
Qed.

(** The fields of the detail page are the record's own: an absent one is
    written as the empty string in its column. *)
Lemma absent_detail_field_is_empty (person : node) (st st' : state) :
  scrape_person sv person st = (st', Ok ()) →
  ∃ person_soup cells,
    faculty_csv st' = faculty_csv st ++ [cells]
    ∧ (find "div" (Some "pane-user-field-bio") person_soup = None →
       column "bio" cells = Some "")
    ∧ (find "div" (Some "views-field views-field-field-office") person_soup = None →
       column "office" cells = Some "")
    ∧ (find "div" (Some "views-field views-field-field-secondary-email") person_soup = None →
       column "email" cells = Some "")
    ∧ (find "strong" (Some "views-label views-label-field-areas-of-interest") person_soup
       = None →
       column "interests" cells = Some "").
Proof.
  intros Hrun. apply scrape_person_inv in Hrun.
  destruct Hrun as (name_href & siblings & h & pos_1 & pos_2 & other_affil
                    & person_soup & interests & image_file
                    & _ & _ & _ & _ & _ & _ & Hinterests & _ & _ & Hcsv).
  exists person_soup. eexists. split; [exact Hcsv|].
  repeat split; intros Habsent.
  - by rewrite (optional_text_absent _ _ _ Habsent).
  - by rewrite (optional_text_absent _ _ _ Habsent).
  - by rewrite (optional_text_absent _ _ _ Habsent).
  - unfold interests_text in Hinterests. rewrite Habsent in Hinterests.
    by injection Hinterests as <-.
Qed.

End ScrapingFacts.

(** ** The properties on sample inputs *)

Example slug_cherie : Slug.image_file_of "Cherie Abbanat" = "cherie_abbanat.jpg".
Proof. reflexivity. Qed.

Example slug_initial :
  Slug.image_file_of "J. Phillip Thompson" = "j_phillip_thompson.jpg".
Proof. reflexivity. Qed.

(** [str.replace] on longer and on empty patterns, as Python has it. *)
Example replace_no_overlap : Slug.replace "ab" "X" "aabab" = "aXX".
Proof. reflexivity. Qed.

Example replace_empty_pattern : Slug.replace "" "-" "abc" = "-a-b-c-".
Proof. reflexivity. Qed.

(** The key reaches the client under the name the code reads, not under
    the documented one. *)
Example key_under_the_name_read :
  Env.key (Env.make_client (Some [("ORSKEY", "5b3ce3597851110001cf6248")]) ∅)
  = Some "5b3ce3597851110001cf6248".
Proof. reflexivity. Qed.

(** [class_] with several classes matches the whole attribute only. *)
Example find_office :
  Html.optional_text "div" "views-field views-field-field-office" Samples.detail = VStr "9-520"
  ∧ Html.optional_text "div" "views-field-field-office views-field" Samples.detail = VNone
  ∧ Html.optional_text "div" "views-field-field-office" Samples.detail = VStr "9-520".
Proof. repeat split; reflexivity. Qed.

(** The sample station file: four input rows, one failed request, three
    data rows; the failure is printed and four requests were sent. *)
Example stations_run :
  let run := Isochrone.batch Samples.routing (Some Samples.stations) Isochrone.initial in
  run.2 = Ok ()
  ∧ Isochrone.outcsv run.1
    = Some [["STATION"; "X"; "Y"; "geom"];
            ["Harvard"; "-71.119"; "42.373"; "POLYGON ((-71.1 42.3, -71.2 42.4, -71.1 42.3))"];
            ["Davis"; "-71.122"; ""; "POLYGON ((-71.1 42.3, -71.2 42.4, -71.1 42.3))"];
            ["Porter"; "-71.119"; "42.388"; "POLYGON ((-71.1 42.3, -71.2 42.4, -71.1 42.3))"]]
  ∧ Isochrone.stdout run.1 = [Isochrone.PPrinted Samples.rate_limited]
  ∧ length (Isochrone.requests run.1) = 4.
Proof. vm_compute. done. Qed.

(** The scenario of the specification: one input row, one data row with
    the polygon's WKT text. *)
Example one_station_run :
  Isochrone.outcsv
    (Isochrone.batch Samples.routing (Some Samples.one_station) Isochrone.initial).1
  = Some [["STATION"; "X"; "Y"; "geom"];
          ["Test"; "-71.1"; "42.3"; "POLYGON ((-71.1 42.3, -71.2 42.4, -71.1 42.3))"]].
Proof. vm_compute. done. Qed.

(** A missing input file is reported and nothing is written. *)
Example missing_input_file :
  Isochrone.batch Samples.routing None Isochrone.initial
  = (Isochrone.State None [Isochrone.Printed "camberville_t.csv does not exist"] [] 0, Ok ()).
Proof. reflexivity. Qed.

(** A record longer than the header is refused by the writer: its
    request and conversion succeed, yet no row is written for it. *)
Example long_record_not_written :
  Isochrone.outcsv
    (Isochrone.batch Samples.routing
       (Some [["STATION"; "X"; "Y"]; ["Test"; "-71.1"; "42.3"; "extra"]])
       Isochrone.initial).1
  = Some [["STATION"; "X"; "Y"; "geom"]].
Proof. vm_compute. done. Qed.

Lemma batch_output_row_count_witness :
  Isochrone.valid_csv Samples.stations = true
  ∧ ∃ st header rows,
      Isochrone.batch Samples.routing (Some Samples.stations) Isochrone.initial = (st, Ok ())
      ∧ Isochrone.outcsv st = Some (header :: rows)
      ∧ length rows
        = length (Csv.dict_rows Samples.stations)
          - length (filter (fun l => Isochrone.line_failed Samples.routing l = true)
                      (Csv.dict_rows Samples.stations))
      ∧ Forall2 (Isochrone.is_row_of Samples.routing header)
          (filter (fun l => Isochrone.line_failed Samples.routing l = false)
             (Csv.dict_rows Samples.stations)) rows.
Proof.
  split; [reflexivity|].
  apply (batch_output_row_count Samples.routing Samples.stations). reflexivity.
Defined.

Lemma failed_request_is_skipped_witness :
  Isochrone.line_params Samples.kendall
  = Ok (Isochrone.Params [[VStr "n/a"; VStr "42.362"]] "foot-walking" "time" [600%Z] 10%Z)
  ∧ Isochrone.process_line Samples.routing ["STATION"; "X"; "Y"; "geom"] Samples.kendall
      Isochrone.initial
    = (Isochrone.State None [Isochrone.PPrinted Samples.rate_limited]
         [Isochrone.Params [[VStr "n/a"; VStr "42.362"]] "foot-walking" "time" [600%Z] 10%Z]
         0,
       Ok ()).
Proof.
  split; [reflexivity|].
  apply (failed_request_is_skipped Samples.routing ["STATION"; "X"; "Y"; "geom"]
           Samples.kendall [] _ Samples.rate_limited Isochrone.initial);
    reflexivity.
Defined.

Lemma written_rows_have_geometry_witness :
  let run := Isochrone.batch Samples.routing (Some Samples.stations) Isochrone.initial in
  (∀ geometry wkt, Isochrone.shape_wkt Samples.routing geometry = Ok wkt → wkt ≠ "")
  ∧ ∀ header rows,
      Isochrone.outcsv run.1 = Some (header :: rows) →
      Forall (fun cells =>
                ∃ line wkt, line ∈ Isochrone.lines_of (Some Samples.stations)
                            ∧ Isochrone.line_wkt Samples.routing line = Ok wkt
                            ∧ last cells = Some wkt
                            ∧ wkt ≠ "") rows.
Proof.
  assert (Hshape : ∀ geometry wkt,
             Isochrone.shape_wkt Samples.routing geometry = Ok wkt → wkt ≠ "").
  { intros geometry wkt. simpl. intros [= <-]. discriminate. }
  intros run. split; [exact Hshape|].
  destruct (written_rows_have_geometry Samples.routing (Some Samples.stations)
              run.1 run.2 Hshape (surjective_pairing run)) as [Hrows _].
  exact Hrows.
Defined.

(** The sample listing page: Cherie Abbanat has a picture, Paul Altidor
    has none, and his record carries her file name. *)
Example listing_run :
  let run := Scraping.faculty_cell (Samples.web true) (Scraping.people_of Samples.listing)
               (Scraping.initial ∅) in
  run.2 = Ok ()
  ∧ Scraping.faculty_csv run.1
    = [Scraping.field_names;
       ["Cherie Abbanat"; "http://dusp.mit.edu/faculty/cherie-abbanat"; " Lecturer "; "  "; "  ";
        "Cherie is a lecturer."; "9-520"; ""; "Community Planning"; "cherie_abbanat.jpg"];
       ["Paul Altidor"; "http://dusp.mit.edu/faculty/paul-altidor"; " Lecturer "; "  "; "  ";
        ""; ""; ""; ""; "cherie_abbanat.jpg"]]
  ∧ Scraping.downloads run.1
    = [(Some "http://dusp.mit.edu/pictures/Cherie Abbanat",
        "/home/user/python-bs/images/cherie_abbanat.jpg")].
Proof. vm_compute. done. Qed.

(** The same page when downloads fail: the cell stops at the first record
    with a TypeError, and the file holds the header alone. *)
Example listing_run_without_photos :
  let run := Scraping.faculty_cell (Samples.web false) (Scraping.people_of Samples.listing)
               (Scraping.initial ∅) in
  run.2 = Raise (MkExn TypeError "unsupported operand type(s) for +")
  ∧ Scraping.faculty_csv run.1 = [Scraping.field_names].
Proof. vm_compute. done. Qed.

(** A page with no record block: the header alone. *)
Example empty_listing_run :
  Scraping.faculty_csv
    (Scraping.faculty_cell (Samples.web true) (Scraping.people_of Samples.bare_detail)
       (Scraping.initial ∅)).1
  = [Scraping.field_names].
Proof. reflexivity. Qed.

Lemma absent_listing_field_raises_witness :
  "views-field-field-position-and-title-1" ∈ Scraping.listing_fields
  ∧ Html.find "div" (Some "views-field-field-position-and-title-1") Samples.mariana = None
  ∧ Html.find_text "div" "views-field-field-position-and-title-1" Samples.mariana
    = Raise (MkExn AttributeError "'NoneType' object has no attribute 'get_text'")
  ∧ (∃ e, (Scraping.scrape_person (Samples.web true) Samples.mariana (Scraping.initial ∅)).2
          = Raise e)
  ∧ Scraping.faculty_csv
      (Scraping.scrape_person (Samples.web true) Samples.mariana (Scraping.initial ∅)).1
    = Scraping.faculty_csv (Scraping.initial ∅).
Proof.
  assert (Hc : "views-field-field-position-and-title-1" ∈ Scraping.listing_fields)
    by (vm_compute; left).
  split; [exact Hc|]. split; [reflexivity|].
  apply (absent_listing_field_raises (Samples.web true) Samples.mariana _
           (Scraping.initial ∅) Hc).
  reflexivity.
Defined.

Lemma failed_download_aborts_witness :
  Html.find "img" None Samples.cherie
  = Some (Html.Tag "img" []
            [("alt", ""); ("src", "http://dusp.mit.edu/pictures/Cherie Abbanat")] [], [])
  ∧ Scraping.wget_download (Samples.web false)
      (Some "http://dusp.mit.edu/pictures/Cherie Abbanat")
      "/home/user/python-bs/images/cherie_abbanat.jpg"
    = Raise (MkExn ServiceError "HTTP Error 404: Not Found")
  ∧ (for_each [Samples.cherie; Samples.paul] (Scraping.scrape_person (Samples.web false))
       (Scraping.initial ∅)).2
    = Raise (MkExn TypeError "unsupported operand type(s) for +").
Proof.
  split; [reflexivity|]. split; [reflexivity|].
  epose proof (failed_download_aborts (Samples.web false) Samples.cherie [Samples.paul]
                 (Scraping.initial ∅) _ _ _ _ _ _ eq_refl eq_refl eq_refl eq_refl) as H.
  cbv zeta in H. destruct H as (_ & Hloop & _).
  rewrite Hloop. reflexivity.
Defined.

Lemma missing_image_reuses_previous_file_witness :
  let st := (Scraping.scrape_person (Samples.web true) Samples.cherie
               (Scraping.State [Scraping.field_names] [] [] 0 ∅)).1 in
  let st' := (Scraping.scrape_person (Samples.web true) Samples.paul st).1 in
  Html.find "img" None Samples.paul = None
  ∧ Scraping.scrape_person (Samples.web true) Samples.paul st = (st', Ok ())
  ∧ ∃ previous cells,
      Scraping.image_file_var st = Some previous
      ∧ Scraping.faculty_csv st' = Scraping.faculty_csv st ++ [cells]
      ∧ length cells = length Scraping.field_names
      ∧ Scraping.column "name" cells = Scraping.record_name Samples.paul
      ∧ Scraping.column "image_file" cells = Some (cell_text previous).
Proof.
  intros st st'.
  assert (Hrun : Scraping.scrape_person (Samples.web true) Samples.paul st = (st', Ok ()))
    by (vm_compute; reflexivity).
  split; [reflexivity|]. split; [exact Hrun|].
  apply (missing_image_reuses_previous_file (Samples.web true) Samples.paul st st');
    [reflexivity|exact Hrun].
Defined.

(** ** More on reading CSV rows *)

Section DictReaderFacts.
Import Csv.

Lemma zip_dict_snoc (l : list (string * string)) (k c : string) :
  foldl (fun d kv => <[kv.1 := VStr kv.2]> d) (∅ : gmap string value) (l ++ [(k, c)])
  = <[k := VStr c]> (foldl (fun d kv => <[kv.1 := VStr kv.2]> d) ∅ l).
Proof. by rewrite foldl_app. Qed.

Lemma fold_cells_member (l : list (string * string)) (k c : string) :
  NoDup l.*1 → (k, c) ∈ l →
  foldl (fun d kv => <[kv.1 := VStr kv.2]> d) (∅ : gmap string value) l !! k = Some (VStr c).
Proof.
  induction l as [|[k' c'] l IH] using rev_ind; intros Hnodup Hin.
  - by apply elem_of_nil in Hin.
  - rewrite zip_dict_snoc. rewrite fmap_app in Hnodup. simpl in Hnodup.
    apply NoDup_app in Hnodup as (Hnodup & Hfresh & _).
    apply elem_of_app in Hin as [Hin|Hin].
    + assert (Hk : k ∈ l.*1).
      { apply list_elem_of_fmap. by exists (k, c). }
      rewrite lookup_insert_ne.
      * by apply IH.
      * intros ->. apply (Hfresh k Hk). by apply list_elem_of_singleton.
    + apply list_elem_of_singleton in Hin. injection Hin as -> ->.
      apply lookup_insert_eq.
Qed.

Lemma fold_cells_absent (l : list (string * string)) (k : string) :
  k ∉ l.*1 →
  foldl (fun d kv => <[kv.1 := VStr kv.2]> d) (∅ : gmap string value) l !! k = None.
Proof.
  induction l as [|[k' c'] l IH] using rev_ind; intros Hk.
  - apply lookup_empty.
  - rewrite zip_dict_snoc. rewrite fmap_app in Hk. simpl in Hk.
    rewrite lookup_insert_ne.
    + apply IH. intros Hin. apply Hk. apply elem_of_app. by left.
    + intros ->. apply Hk. apply elem_of_app. right. by apply list_elem_of_singleton.
Qed.

Lemma zip_dict_lookup (header cells : list string) (i : nat) (name : string) :
  NoDup header → header !! i = Some name →
  zip_dict header cells !! name = VStr <$> cells !! i.
Proof.
  intros Hnodup Hname. unfold zip_dict.
  destruct (cells !! i) as [c|] eqn:Hcell; simpl.
  - apply fold_cells_member.
    + rewrite fst_zip_short. eapply sublist_NoDup; [done|apply sublist_take].
    + apply (list_elem_of_lookup_2 _ i). rewrite lookup_zip_with, Hname. simpl.
      by rewrite Hcell.
  - apply fold_cells_absent. rewrite fst_zip_short.
    intros Hin. apply elem_of_take in Hin as (j & Hj & Hlt).
    assert (i = j) by (eapply NoDup_lookup; eauto). subst j.
    apply lookup_ge_None in Hcell. lia.
Qed.

Lemma fill_lookup (names : list string) (d : gmap string value) (name : string) :
  foldl (fun d k => <[k := VNone]> d) d names !! name
  = if bool_decide (name ∈ names) then Some VNone else d !! name.
Proof.
  revert d. induction names as [|k names IH]; intros d; cbn [foldl].
  - rewrite bool_decide_false; [done|apply not_elem_of_nil].
  - rewrite IH. destruct (decide (name ∈ names)) as [Hin|Hout].
    + rewrite !bool_decide_true; [done|by right|done].
    + rewrite (bool_decide_false _ Hout). destruct (decide (name = k)) as [->|Hne].
      * rewrite bool_decide_true by left. apply lookup_insert_eq.
      * rewrite bool_decide_false.
        -- by rewrite lookup_insert_ne.
        -- intros Hin. apply elem_of_cons in Hin as [?|?]; done.
Qed.

(** Under a header without duplicates, the value of a row under the
    [i]-th column name is the [i]-th cell of the record, or [None] where
    the record is too short. *)
Lemma dict_row_lookup (header cells : list string) (i : nat) (name : string) :
  NoDup header → header !! i = Some name →
  fields (dict_row header cells) !! name = Some (from_option VStr VNone (cells !! i)).
Proof.
  intros Hnodup Hname.
  pose proof (zip_dict_lookup header cells i name Hnodup Hname) as Hzip.
  pose proof (lookup_lt_Some _ _ _ Hname) as Hi.
  unfold dict_row.
  case_bool_decide as Hlong; [|case_bool_decide as Hshort]; simpl.
  - rewrite Hzip. destruct (cells !! i) eqn:Hcell; [done|].
    apply lookup_ge_None in Hcell. lia.
  - rewrite fill_lookup. destruct (cells !! i) as [c|] eqn:Hcell; simpl.
    + rewrite bool_decide_false; [by rewrite Hzip|].
      intros Hin. apply list_elem_of_lookup in Hin as [j Hj].
      rewrite lookup_drop in Hj.
      assert (i = length cells + j) by (eapply NoDup_lookup; eauto).
      apply lookup_lt_Some in Hcell. lia.
    + rewrite bool_decide_true; [done|].
      apply lookup_ge_None in Hcell.
      apply list_elem_of_lookup. exists (i - length cells).
      rewrite lookup_drop. by replace (length cells + (i - length cells)) with i by lia.
  - rewrite Hzip. destruct (cells !! i) eqn:Hcell; [done|].
    apply lookup_ge_None in Hcell. lia.
Qed.

End DictReaderFacts.

(** ** The batch cell, row by row *)

Section CellsFacts.
Import Csv Isochrone Cells.

Variable sv : services.

(** An iteration whose line has both coordinates ends normally, in the
    state its outcome describes. *)
Lemma process_line_outcome (field_names : list string) (line : row) (p : params)
    (st : state) :
  line_params line = Ok p →
  process_line sv field_names line st
  = (after_line p (line_outcome sv field_names line) st, Ok ()).
Proof.
  intros Hp. unfold line_outcome.
  destruct (line_wkt sv line) as [wkt|err] eqn:Hwkt.
  - destruct (dict_to_list field_names (setitem line "geom" (VStr wkt)))
      as [cells|err] eqn:Hrow.
    + by apply process_line_written with (wkt := wkt).
    + by apply process_line_refused with (wkt := wkt).
  - by apply process_line_failed.
Qed.

Lemma has_coordinates_params (header : list string) (data : list (list string)) :
  has_coordinates (header :: data) = true →
  Forall (fun line => ∃ p, line_params line = Ok p) (dict_rows (header :: data)).
Proof.
  unfold has_coordinates. intros Hxy. apply andb_prop in Hxy as [Hx Hy].
  apply bool_decide_eq_true in Hx, Hy.
  unfold dict_rows. apply Forall_fmap, Forall_forall. intros cells _.
  destruct (getitem_dict_row header cells "X" Hx) as [x Hgx].
  destruct (getitem_dict_row header cells "Y" Hy) as [y Hgy].
  eexists. unfold line_params. rewrite Hgx, Hgy. reflexivity.
Qed.

(** The batch cell on an existing input file: the loop, started on the
    freshly written header. *)
Lemma batch_run (header : list string) (data : list (list string)) (st0 : state) :
  batch sv (Some (header :: data)) st0
  = match for_each (dict_rows (header :: data)) (process_line sv (header ++ ["geom"]))
            (State (Some [header ++ ["geom"]]) (stdout st0) (requests st0) (slept st0)) with
    | (st, Ok a) => (st, Ok a)
    | (st, Raise e) =>
        if only FileNotFoundError (exn_cls e)
        then print (Printed (mbta_locs +:+ " does not exist")) st
        else (st, Raise e)
    end.
Proof. reflexivity. Qed.

(** The loop over lines that have both coordinates: one request per line,
    in order, and it ends normally. *)
Lemma for_each_requests (field_names : list string) (lines : list row) :
  Forall (fun line => ∃ p, line_params line = Ok p) lines →
  ∀ st, ∃ st' sent,
    for_each lines (process_line sv field_names) st = (st', Ok ())
    ∧ requests st' = requests st ++ sent
    ∧ Forall2 (fun line p => line_params line = Ok p) lines sent.
Proof.
  induction 1 as [|line lines [p Hp] _ IH]; intros st.
  - exists st, []. by rewrite app_nil_r.
  - rewrite for_each_cons, (process_line_outcome _ _ _ _ Hp).
    destruct (IH (after_line p (line_outcome sv field_names line) st))
      as (st' & sent & Hrun & Hreq & Hsent).
    exists st', (p :: sent). split; [done|]. split; [|by constructor].
    rewrite Hreq. destruct (line_outcome sv field_names line); simpl;
      by rewrite <- app_assoc.
Qed.

(** X1: for every input file whose header has the columns [X] and [Y],
    whatever the length of its records and whatever the service answers,
    the batch cell ends normally and has sent exactly one request per input
    row, in the order of the rows, each with the row's own coordinates: no
    row is skipped before its request and none is requested twice. *)
Theorem one_request_per_row (records : list (list string)) :
  has_coordinates records = true →
  ∃ st, batch sv (Some records) initial = (st, Ok ())
        ∧ Forall2 (fun line p => line_params line = Ok p) (dict_rows records) (requests st).
Proof.
  intros Hxy. destruct records as [|header data]; [done|].
  destruct (for_each_requests (header ++ ["geom"]) _ (has_coordinates_params _ _ Hxy)
              (State (Some [header ++ ["geom"]]) [] [] 0))
    as (st & sent & Hrun & Hreq & Hsent).
  exists st. rewrite batch_run. unfold initial. cbn [stdout requests slept].
  rewrite Hrun. split; [done|].
  by rewrite Hreq.
Qed.

(** X2: a record that is longer than the header is still requested and
    slept for; only then does the writer refuse it: the ValueError is
    printed by the same handler as a failed request, the row is not
    written, and the loop goes on. *)
Theorem long_record_is_requested_then_refused (header cells : list string)
    (field_names : list string) (wkt : string) (st : state) :
  "X" ∈ header → "Y" ∈ header →
  length header < length cells →
  line_wkt sv (dict_row header cells) = Ok wkt →
  ∃ p, line_params (dict_row header cells) = Ok p
       ∧ process_line sv field_names (dict_row header cells) st
         = (State (outcsv st)
              (stdout st ++ [PPrinted (MkExn ValueError "dict contains fields not in fieldnames")])
              (requests st ++ [p]) (slept st + 2),
            Ok ()).
Proof.
  intros Hx Hy Hlong Hwkt.
  destruct (getitem_dict_row header cells "X" Hx) as [x Hgx].
  destruct (getitem_dict_row header cells "Y" Hy) as [y Hgy].
  eexists. split.
  - unfold line_params. rewrite Hgx, Hgy. reflexivity.
  - eapply process_line_refused; [|exact Hwkt|].
    + unfold line_params. rewrite Hgx, Hgy. reflexivity.
    + eapply dict_to_list_rest. simpl. by apply rest_dict_row_long.
Qed.

(** X3: when the header lacks the column [X] or the column [Y] and the
    file has a data row, the cell stops at the first row with a KeyError
    that [except FileNotFoundError] does not catch: the output file holds
    the header alone, no request was sent and nothing was printed. *)
Theorem missing_coordinate_column (header : list string) (data : list (list string)) :
  "X" ∉ header ∨ "Y" ∉ header →
  (∃ cells, cells ∈ data ∧ cells ≠ []) →
  ∃ st name,
    batch sv (Some (header :: data)) initial = (st, Raise (MkExn KeyError name))
    ∧ (name = "X" ∨ name = "Y")
    ∧ outcsv st = Some [header ++ ["geom"]]
    ∧ requests st = []
    ∧ stdout st = [].
Proof.
  intros Hmissing (cells & Hin & Hnonblank).
  assert (Hlines : ∃ first others, dict_rows (header :: data) = dict_row header first :: others).
  { unfold dict_rows.
    assert (Hf : cells ∈ filter (fun r => negb (is_blank r)) data).
    { apply list_elem_of_filter. split; [by destruct cells|done]. }
    destruct (filter _ data) as [|first others]; [by apply elem_of_nil in Hf|].
    by exists first, (dict_row header <$> others). }
  destruct Hlines as (first & others & Hlines).
  assert (Hkey : ∃ name, line_params (dict_row header first) = Raise (MkExn KeyError name)
                         ∧ (name = "X" ∨ name = "Y")).
  { assert (Habsent : ∀ name, name ∉ header →
              getitem (dict_row header first) name = Raise (MkExn KeyError name)).
    { intros name Hname. unfold getitem.
      destruct (fields (dict_row header first) !! name) as [v|] eqn:Hv; [|done].
      apply elem_of_dom_2 in Hv. rewrite dom_dict_row in Hv.
      by apply elem_of_list_to_set in Hv. }
    unfold line_params.
    destruct (decide ("X" ∈ header)) as [Hx|Hx].
    - destruct Hmissing as [?|Hy]; [done|].
      destruct (getitem_dict_row header first "X" Hx) as [x ->]. simpl.
      rewrite (Habsent "Y" Hy). exists "Y". by split; [|right].
    - rewrite (Habsent "X" Hx). exists "X". by split; [|left]. }
  destruct Hkey as (name & Hkey & Hname).
  eexists _, name. rewrite batch_run, Hlines, for_each_cons.
  rewrite (process_line_no_params _ _ _ _ _ Hkey). unfold initial. cbn.
  by repeat split.
Qed.

(** X4: under a header with distinct column names, none of them [geom], the
    row written for a record that is not longer than the header is the
    record itself, cell for cell, completed with empty cells up to the
    width of the header, followed by the WKT text: the input columns come
    out unchanged. *)
Theorem input_cells_are_carried_over (header cells : list string) (wkt : string) :
  NoDup header →
  "geom" ∉ header →
  length cells ≤ length header →
  line_wkt sv (dict_row header cells) = Ok wkt →
  let written := cells ++ replicate (length header - length cells) "" ++ [wkt] in
  is_row_of sv (header ++ ["geom"]) (dict_row header cells) written
  ∧ ∀ st, outcsv (process_line sv (header ++ ["geom"]) (dict_row header cells) st).1
          = Some (default [] (outcsv st) ++ [written]).
Proof.
  intros Hnodup Hgeom Hlen Hwkt written.
  assert (Hrow : dict_to_list (header ++ ["geom"])
                   (setitem (dict_row header cells) "geom" (VStr wkt)) = Ok written).
  { rewrite dict_to_list_ok.
    - f_equal. unfold written. rewrite fmap_app, app_assoc. f_equal.
      + apply list_eq. intros j. rewrite list_lookup_fmap.
        destruct (header !! j) as [name|] eqn:Hname; simpl.
        * assert (Hne : "geom" ≠ name).
          { intros <-. apply Hgeom. by eapply list_elem_of_lookup_2. }
          rewrite lookup_insert_ne by done.
          rewrite (dict_row_lookup header cells j name Hnodup Hname). simpl.
          pose proof (lookup_lt_Some _ _ _ Hname) as Hj.
          destruct (cells !! j) as [c|] eqn:Hcell; simpl.
          -- rewrite lookup_app_l by (by eapply lookup_lt_Some). by rewrite Hcell.
          -- apply lookup_ge_None in Hcell.
             rewrite lookup_app_r by done. symmetry. apply lookup_replicate_2. lia.
        * apply lookup_ge_None in Hname. symmetry. apply lookup_ge_None.
          rewrite length_app, length_replicate. lia.
      + simpl. by rewrite lookup_insert_eq.
    - simpl. by apply rest_dict_row.
    - simpl. rewrite dom_insert_L, dom_dict_row, list_to_set_app_L. simpl.
      by rewrite union_empty_r_L, union_comm_L. }
  split; [by exists wkt|].
  intros st.
  destruct (line_params (dict_row header cells)) as [p|e] eqn:Hp.
  - by rewrite (process_line_written _ _ _ _ _ _ _ Hp Hwkt Hrow).
  - unfold line_wkt in Hwkt. by rewrite Hp in Hwkt.
Qed.

(** The output file after the loop depends on what it held before the
    loop and on nothing else of the state. *)
Lemma for_each_outcsv_frame (field_names : list string) (lines : list row) :
  ∀ st1 st2,
    outcsv st1 = outcsv st2 →
    outcsv (for_each lines (process_line sv field_names) st1).1
    = outcsv (for_each lines (process_line sv field_names) st2).1
    ∧ (for_each lines (process_line sv field_names) st1).2
      = (for_each lines (process_line sv field_names) st2).2.
Proof.
  induction lines as [|line lines IH]; intros st1 st2 Hout; [done|].
  rewrite !for_each_cons.
  destruct (line_params line) as [p|e] eqn:Hp.
  - rewrite !(process_line_outcome _ _ _ _ Hp). apply IH.
    destruct (line_outcome sv field_names line); simpl; by rewrite ?Hout.
  - by rewrite !(process_line_no_params _ _ _ _ _ Hp).
Qed.

(** X5: the output file follows the input file. When the input file is
    missing, the cell prints the one message and ends normally, and the
    output file is not touched, nor is any request sent. When it exists, the
    output file is opened anew: what it holds afterwards does not depend on
    the state the cell started from; and for an input file with no record at
    all the cell raises a TypeError and leaves the output file empty. *)
Theorem output_file_follows_input_file (infile : option (list (list string)))
    (st0 : state) :
  let run := batch sv infile st0 in
  match infile with
  | None =>
      run = (State (outcsv st0) (stdout st0 ++ [Printed "camberville_t.csv does not exist"])
               (requests st0) (slept st0),
             Ok ())
  | Some records =>
      outcsv run.1 = outcsv (batch sv infile initial).1
      ∧ is_Some (outcsv run.1)
      ∧ (records = [] →
         outcsv run.1 = Some []
         ∧ run.2 = Raise (MkExn TypeError
                            "unsupported operand type(s) for +: 'NoneType' and 'list'"))
  end.
Proof.
  intros run. subst run. destruct infile as [[|header data]|]; [done| |done].
  split; [|split; [|done]].
  - rewrite !batch_run.
    pose proof (for_each_outcsv_frame (header ++ ["geom"]) (dict_rows (header :: data))
                  (State (Some [header ++ ["geom"]]) (stdout st0) (requests st0) (slept st0))
                  (State (Some [header ++ ["geom"]]) (stdout initial) (requests initial)
                     (slept initial)) eq_refl) as [Hout Hres].
    destruct (for_each _ _ _) as [st1 r1].
    destruct (for_each _ _ _) as [st2 r2].
    simpl in Hout, Hres. subst r2.
    destruct r1 as [[]|e]; [done|].
    by destruct (only FileNotFoundError (exn_cls e)).
  - rewrite batch_run.
    destruct (for_each _ _ _) as [st1 r1] eqn:Hloop.
    apply (for_each_rows sv _ _ _ _ _ [header ++ ["geom"]]) in Hloop as (rows & Hout & _);
      [|done].
    destruct r1 as [[]|e]; [simpl; rewrite Hout; by eexists|].
    destruct (only FileNotFoundError (exn_cls e)); simpl; rewrite Hout; by eexists.
Qed.

Lemma wkt_or_error (line : row) :
  (∃ wkt, line_wkt sv line = Ok wkt ∧ wkt_of sv line = Some wkt ∧ error_of sv line = None)
  ∨ (∃ err, line_wkt sv line = Raise err ∧ wkt_of sv line = None
            ∧ error_of sv line = Some err).
Proof.
  unfold wkt_of, error_of. destruct (line_wkt sv line) as [wkt|err]; [left|right]; eauto.
Qed.

(** The loop over lines the writer accepts: what is printed and how long
    the cell sleeps. *)
Lemma for_each_accounts (field_names : list string) (lines : list row) :
  Forall (writable field_names) lines →
  ∀ st, ∃ st',
    for_each lines (process_line sv field_names) st = (st', Ok ())
    ∧ stdout st' = stdout st ++ (PPrinted <$> omap (error_of sv) lines)
    ∧ slept st' = slept st + 2 * length (omap (wkt_of sv) lines).
Proof.
  induction 1 as [|line lines [[p Hp] Hcells] _ IH]; intros st.
  - exists st. simpl. split; [done|]. split; [by rewrite app_nil_r|lia].
  - rewrite for_each_cons, (process_line_outcome _ _ _ _ Hp).
    destruct (IH (after_line p (line_outcome sv field_names line) st))
      as (st' & Hrun & Hout & Hslept).
    exists st'. split; [done|]. rewrite Hout, Hslept.
    cbn [omap list_omap]. unfold line_outcome.
    destruct (wkt_or_error line) as [(wkt & -> & -> & ->)|(err & -> & -> & ->)].
    + destruct (Hcells wkt) as [cells ->]. cbn [after_line stdout slept length].
      split; [done|lia].
    + cbn [after_line stdout slept fmap list_fmap].
      split; [by rewrite <- app_assoc|lia].
Qed.

(** X6: on a valid input file the cell prints the exception of each failed
    row, once and in the order of the rows, and nothing else; and it sleeps
    two seconds for each row whose request and conversion succeeded and
    not at all after a failed request. *)
Theorem reports_and_sleeps (records : list (list string)) :
  valid_csv records = true →
  let st := (batch sv (Some records) initial).1 in
  stdout st = PPrinted <$> omap (error_of sv) (dict_rows records)
  ∧ slept st = 2 * length (omap (wkt_of sv) (dict_rows records))
  ∧ length (omap (error_of sv) (dict_rows records))
    + length (omap (wkt_of sv) (dict_rows records))
    = length (dict_rows records).
Proof.
  intros Hvalid st. subst st. destruct records as [|header data]; [done|].
  destruct (for_each_accounts _ _ (valid_csv_writable header data Hvalid)
              (State (Some [header ++ ["geom"]]) [] [] 0))
    as (st & Hrun & Hout & Hslept).
  rewrite batch_run. unfold initial. cbn [stdout requests slept].
  rewrite Hrun. cbn [fst]. split; [done|]. split; [done|].
  clear. induction (dict_rows (header :: data)) as [|line lines IH]; [done|].
  cbn [omap list_omap].
  destruct (wkt_or_error line) as [(wkt & _ & -> & ->)|(err & _ & -> & ->)];
    cbn [length]; lia.
Qed.

(** One iteration of the preview cell. *)
Lemma preview_line_run (line : row) (p : params) (st : state) :
  line_params line = Ok p →
  preview_line sv line st
  = (State (outcsv st) (stdout st ++ [preview_output sv line]) (requests st ++ [p])
       (slept st + match wkt_of sv line with Some _ => 2 | None => 0 end),
     Ok ()).
Proof.
  intros Hp. unfold preview_output, wkt_of, line_wkt. rewrite Hp. simpl.
  unfold preview_line, lift, try_except, isochrones, print, sleep, modify, getitem.
  unfold mbind, prog_bind at 1. rewrite Hp. unfold mbind, prog_bind.
  destruct (ors_isochrones sv p) as [request|e]; simpl.
  - destruct (geometry_wkt sv request) as [wkt|e]; simpl.
    + rewrite lookup_insert_eq. reflexivity.
    + by rewrite Nat.add_0_r.
  - by rewrite Nat.add_0_r.
Qed.

Lemma for_each_preview (lines : list row) :
  Forall (fun line => ∃ p, line_params line = Ok p) lines →
  ∀ st, ∃ st',
    for_each lines (preview_line sv) st = (st', Ok ())
    ∧ outcsv st' = outcsv st
    ∧ stdout st' = stdout st ++ (preview_output sv <$> lines)
    ∧ slept st' = slept st + 2 * length (omap (wkt_of sv) lines).
Proof.
  induction 1 as [|line lines [p Hp] _ IH]; intros st.
  - exists st. simpl. rewrite app_nil_r. repeat split; [done..|lia].
  - rewrite for_each_cons, (preview_line_run _ _ _ Hp).
    edestruct IH as (st' & Hrun & Hcsv & Hout & Hslept).
    exists st'. split; [exact Hrun|]. rewrite Hcsv, Hout, Hslept.
    cbn [outcsv stdout slept fmap list_fmap omap list_omap].
    split; [done|]. split; [by rewrite <- app_assoc|].
    destruct (wkt_of sv line); cbn [length]; lia.
Qed.

Lemma printed_texts_preview (lines : list row) :
  printed_texts (preview_output sv <$> lines) = omap (wkt_of sv) lines.
Proof.
  unfold printed_texts. induction lines as [|line lines IH]; [done|].
  cbn [fmap list_fmap omap list_omap]. unfold preview_output at 1.
  destruct (wkt_or_error line) as [(wkt & -> & -> & _)|(err & -> & -> & _)];
    by rewrite <- IH.
Qed.

Lemma printed_errors_preview (lines : list row) :
  printed_errors (preview_output sv <$> lines) = omap (error_of sv) lines.
Proof.
  unfold printed_errors. induction lines as [|line lines IH]; [done|].
  cbn [fmap list_fmap omap list_omap]. unfold preview_output at 1.
  destruct (wkt_or_error line) as [(wkt & -> & _ & ->)|(err & -> & _ & ->)];
    by rewrite <- IH.
Qed.

Lemma printed_errors_pprinted (errs : list exn) :
  printed_errors (PPrinted <$> errs) = errs.
Proof.
  unfold printed_errors. induction errs as [|err errs IH]; [done|].
  cbn [fmap list_fmap omap list_omap]. by rewrite IH.
Qed.

Lemma rows_end_with_wkt (header : list string) (lines : list row) :
  ∀ rows,
    Forall2 (is_row_of sv (header ++ ["geom"]))
      (filter (fun l => line_failed sv l = false) lines) rows →
    Forall2 (fun cells wkt => last cells = Some wkt) rows (omap (wkt_of sv) lines).
Proof.
  induction lines as [|line lines IH]; intros rows Hrows.
  - apply Forall2_nil_inv_l in Hrows as ->. constructor.
  - cbn [omap list_omap].
    destruct (wkt_or_error line) as [(wkt & Hwkt & -> & _)|(err & Herr & -> & _)].
    + rewrite filter_cons_True in Hrows by (apply line_failed_false; eauto).
      apply Forall2_cons_inv_l in Hrows as (cells & rows' & Hcells & Hrows & ->).
      constructor; [|by apply IH].
      apply is_row_of_geom in Hcells as (wkt' & Hwkt' & Hlast). congruence.
    + rewrite filter_cons_False in Hrows; [by apply IH|].
      intros Hok. apply line_failed_false in Hok as [wkt Hwkt]. congruence.
Qed.

(** X7: on a valid input file the preview cell and the batch cell agree.
    The preview cell ends normally and writes no file; the WKT texts it
    prints are, one for one and in order, the last cells of the data rows
    the batch cell writes; the exceptions the two cells print are the same;
    and both sleep equally long. *)
Theorem preview_prints_what_batch_writes (records : list (list string)) :
  valid_csv records = true →
  let b := (batch sv (Some records) initial).1 in
  let p := preview sv (Some records) initial in
  p.2 = Ok ()
  ∧ outcsv p.1 = None
  ∧ Forall2 (fun cells wkt => last cells = Some wkt)
      (tail (default [] (outcsv b))) (printed_texts (stdout p.1))
  ∧ printed_errors (stdout p.1) = printed_errors (stdout b)
  ∧ slept p.1 = slept b.
Proof.
  intros Hvalid b p. subst b p. destruct records as [|header data]; [done|].
  pose proof (valid_csv_writable header data Hvalid) as Hlines.
  assert (Hparams : Forall (fun line => ∃ q, line_params line = Ok q)
                      (dict_rows (header :: data))).
  { eapply Forall_impl; [exact Hlines|]. by intros line [Hq _]. }
  destruct (for_each_writable sv (header ++ ["geom"]) _ Hlines
              (State (Some [header ++ ["geom"]]) [] [] 0) [header ++ ["geom"]] eq_refl)
    as (stb & rows & Hrunb & Hcsvb & Hrows & _).
  destruct (for_each_accounts _ _ Hlines (State (Some [header ++ ["geom"]]) [] [] 0))
    as (stb' & Hrunb' & Houtb & Hsleptb).
  rewrite Hrunb in Hrunb'. injection Hrunb' as <-.
  destruct (for_each_preview _ Hparams initial) as (stp & Hrunp & Hcsvp & Houtp & Hsleptp).
  assert (Hb : batch sv (Some (header :: data)) initial = (stb, Ok ())).
  { rewrite batch_run. unfold initial. cbn [stdout requests slept]. by rewrite Hrunb. }
  rewrite Hb. cbn [fst].
  assert (Hp : preview sv (Some (header :: data)) initial = (stp, Ok ())).
  { unfold preview, try_except, open_read. unfold mbind at 1, prog_bind at 1.
    cbn [mret prog_ret]. by rewrite Hrunp. }
  rewrite Hp. cbn [fst snd].
  split; [done|]. split; [by rewrite Hcsvp|].
  rewrite Hcsvb, Houtp, Houtb, Hsleptb, Hsleptp. simpl.
  rewrite printed_texts_preview, printed_errors_preview, printed_errors_pprinted.
  split; [exact (rows_end_with_wkt header _ _ Hrows)|done].
Qed.

(** One iteration of the cell that lists the stations. *)
Lemma print_station_run (header cells : list string) (i : nat) (st : state) :
  NoDup header → header !! i = Some "STATION" →
  print_station (dict_row header cells) st
  = (State (outcsv st) (stdout st ++ [Printed (default "None" (cells !! i))])
       (requests st) (slept st),
     Ok ()).
Proof.
  intros Hnodup Hi. unfold print_station, getitem, lift, print, modify, mbind, prog_bind.
  rewrite (dict_row_lookup header cells i "STATION" Hnodup Hi).
  by destruct (cells !! i).
Qed.

(** X8: when [STATION] is the [i]-th of the distinct column names of the
    header, the cell that lists the stations prints, for each record of the
    file that is not blank and in their order, the [i]-th cell of the
    record, and the word [None] for a record too short to have one; it ends
    normally, sends no request and writes no file. *)
Theorem stations_are_listed (header : list string) (data : list (list string)) (i : nat) :
  NoDup header →
  header !! i = Some "STATION" →
  print_stations (Some (header :: data)) initial
  = (State None
       ((fun cells => Printed (default "None" (cells !! i)))
          <$> filter (fun r => negb (is_blank r)) data)
       [] 0,
     Ok ()).
Proof.
  intros Hnodup Hi.
  assert (Hloop : ∀ records st,
            for_each (dict_row header <$> records) print_station st
            = (State (outcsv st)
                 (stdout st ++ ((fun cells => Printed (default "None" (cells !! i)))
                                  <$> records))
                 (requests st) (slept st),
               Ok ())).
  { induction records as [|cells records IH]; intros st.
    - simpl. rewrite app_nil_r. by destruct st.
    - rewrite fmap_cons, for_each_cons, (print_station_run _ _ _ _ Hnodup Hi), IH.
      cbn [outcsv stdout requests slept fmap list_fmap]. by rewrite <- app_assoc. }
  unfold print_stations, try_except, open_read. unfold mbind at 1, prog_bind at 1.
  cbn [mret prog_ret]. unfold dict_rows. by rewrite Hloop.
Qed.

End CellsFacts.

(** ** The faculty scraper, field by field *)

Section ScrapingMore.
Import Html Scraping.

Variable sv : services.

Lemma bind_ok {S A B : Type} (m : prog S A) (k : A → prog S B) (st st1 : S) (a : A) :
  m st = (st1, Ok a) → (m ≫= k) st = k a st1.
Proof. intros Hm. unfold mbind, prog_bind. by rewrite Hm. Qed.

Lemma bind_raise {S A B : Type} (m : prog S A) (k : A → prog S B) (st st1 : S) (e : exn) :
  m st = (st1, Raise e) → (m ≫= k) st = (st1, Raise e).
Proof. intros Hm. unfold mbind, prog_bind. by rewrite Hm. Qed.

Lemma bind_lift_ok {S A B : Type} (x : result A) (k : A → prog S B) (st : S) (a : A) :
  x = Ok a → (lift x ≫= k) st = k a st.
Proof. by intros ->. Qed.

Lemma bind_lift_raise {S A B : Type} (x : result A) (k : A → prog S B) (st : S) (e : exn) :
  x = Raise e → (lift x ≫= k) st = (st, Raise e).
Proof. by intros ->. Qed.

(** The first steps of an iteration for a block whose link has an address:
    the message is printed and the rest runs with the full address. *)
Lemma scrape_person_steps (person name_href : node) (siblings : list node) (h : string)
    (st : state) :
  find "a" (Some "username") person = Some (name_href, siblings) →
  get "href" name_href = Some h →
  scrape_person sv person st
  = (_ ← fetch_image sv (get_text name_href) person;
     pos_1 ← lift (find_text "div" "views-field-field-position-and-title-1" person);
     pos_2 ← lift (find_text "div" "views-field-field-position-and-title-2" person);
     other_affil ← lift (find_text "div" "views-field-field-other-division" person);
     _ ← fetch_details sv (VStr ("http://dusp.mit.edu" +:+ h));
     bio ← read "bio";
     office ← read "office";
     email ← read "email";
     interests ← read "interests";
     image_file ← read "image_file";
     _ ← writerow (Csv.Row (list_to_map
            [("name", VStr (get_text name_href));
             ("href", VStr ("http://dusp.mit.edu" +:+ h));
             ("pos_1", VStr pos_1); ("pos_2", VStr pos_2);
             ("other_affil", VStr other_affil); ("bio", bio); ("office", office);
             ("email", email); ("interests", interests); ("image_file", image_file)]) None);
     sleep)
      (State (faculty_csv st)
         (stdout st ++ ["Scraping " +:+ get_text name_href +:+ "..."])
         (downloads st) (naps st) (vars st)).
Proof.
  intros Hfind Hget. unfold scrape_person.
  erewrite bind_lift_ok; [|by rewrite Hfind].
  cbv zeta. cbn [fst].
  erewrite bind_ok; [|reflexivity].
  erewrite bind_lift_ok; [|by rewrite Hget].
  reflexivity.
Qed.

(** The image block when the record has a picture: it ends normally
    exactly when the download does. *)
Lemma fetch_image_run (name : string) (person img : node) (siblings : list node)
    (st : state) :
  find "img" None person = Some (img, siblings) →
  let path := (getcwd sv +:+ "/images/") +:+ Slug.image_file_of name in
  let st1 := State (faculty_csv st) (stdout st) (downloads st ++ [(get "src" img, path)])
               (naps st) (<["image_file" := VStr (Slug.image_file_of name)]> (vars st)) in
  fetch_image sv name person st
  = match wget_download sv (get "src" img) path with
    | Ok _ => (st1, Ok ())
    | Raise _ => (st1, Raise (MkExn TypeError "unsupported operand type(s) for +"))
    end.
Proof.
  intros Himg path st1. unfold fetch_image. rewrite Himg.
  unfold try_except, download, print, assign, modify, lift, mbind, prog_bind.
  cbn [faculty_csv stdout downloads naps vars].
  fold path. by destruct (wget_download sv (get "src" img) path) as [[]|err].
Qed.

(** The detail block, from a link that has an address. *)
Lemma fetch_details_run (h : string) (st : state) :
  fetch_details sv (VStr ("http://dusp.mit.edu" +:+ h)) st
  = match fetch_soup sv (VStr ("http://dusp.mit.edu" +:+ h)) with
    | Raise e => (st, Raise e)
    | Ok person_soup =>
        let st1 :=
          State (faculty_csv st) (stdout st) (downloads st) (naps st)
            (<["email" := optional_text "div" "views-field views-field-field-secondary-email"
                            person_soup]>
               (<["office" := optional_text "div" "views-field views-field-field-office"
                                person_soup]>
                  (<["bio" := optional_text "div" "pane-user-field-bio" person_soup]>
                     (vars st)))) in
        match interests_text person_soup with
        | Raise e => (st1, Raise e)
        | Ok interests =>
            (State (faculty_csv st) (stdout st) (downloads st) (naps st)
               (<["interests" := interests]> (vars st1)),
             Ok ())
        end
    end.
Proof.
  unfold fetch_details. change (truthy _) with true. cbv iota.
  unfold assign, modify, lift, mbind, prog_bind.
  destruct (fetch_soup sv _) as [person_soup|e]; [|done].
  cbn [faculty_csv stdout downloads naps vars].
  by destruct (interests_text person_soup).
Qed.

(** One iteration that ends normally, exactly: every step before the row
    succeeded, and the state it leaves is the state after the image block
    with the four detail variables rebound, one more record in the file
    and one more sleep. *)
Lemma scrape_person_exact (person : node) (st st' : state) :
  scrape_person sv person st = (st', Ok ()) →
  ∃ name_href siblings h pos_1 pos_2 other_affil person_soup interests image_file st_img,
    find "a" (Some "username") person = Some (name_href, siblings)
    ∧ get "href" name_href = Some h
    ∧ fetch_image sv (get_text name_href) person
        (State (faculty_csv st)
           (stdout st ++ ["Scraping " +:+ get_text name_href +:+ "..."])
           (downloads st) (naps st) (vars st))
      = (st_img, Ok ())
    ∧ find_text "div" "views-field-field-position-and-title-1" person = Ok pos_1
    ∧ find_text "div" "views-field-field-position-and-title-2" person = Ok pos_2
    ∧ find_text "div" "views-field-field-other-division" person = Ok other_affil
    ∧ fetch_soup sv (VStr ("http://dusp.mit.edu" +:+ h)) = Ok person_soup
    ∧ interests_text person_soup = Ok interests
    ∧ image_file_var st_img = Some image_file
    ∧ st' = State
              (faculty_csv st_img
               ++ [[get_text name_href; "http://dusp.mit.edu" +:+ h; pos_1; pos_2;
                    other_affil;
                    cell_text (optional_text "div" "pane-user-field-bio" person_soup);
                    cell_text (optional_text "div" "views-field views-field-field-office"
                                 person_soup);
                    cell_text (optional_text "div"
                                 "views-field views-field-field-secondary-email"
                                 person_soup);
                    cell_text interests;
                    cell_text image_file]])
              (stdout st_img) (downloads st_img) (S (naps st_img))
              (<["interests" := interests]>
                 (<["email" := optional_text "div"
                                 "views-field views-field-field-secondary-email"
                                 person_soup]>
                    (<["office" := optional_text "div"
                                     "views-field views-field-field-office" person_soup]>
                       (<["bio" := optional_text "div" "pane-user-field-bio" person_soup]>
                          (vars st_img))))).
Proof.
  intros H. unfold scrape_person in H.
  apply bind_inv in H as [(e & _ & [=])|(st1 & [name_href siblings] & Hm & H)].
  apply lift_inv in Hm as [-> Hname_href].
  cbv zeta in H. cbn [fst] in H. unfold deref in Hname_href.
  destruct (find "a" (Some "username") person) as [found|] eqn:Hfind; [|done].
  injection Hname_href as ->.
  apply bind_inv in H as [(e & _ & [=])|(st1 & [] & Hm & H)].
  unfold print, modify in Hm. injection Hm as <-.
  apply bind_inv in H as [(e & _ & [=])|(st2 & href & Hm & H)].
  apply lift_inv in Hm as [-> Hhref].
  destruct (get "href" name_href) as [h|] eqn:Hget; [|done].
  injection Hhref as <-.
  apply bind_inv in H as [(e & _ & [=])|(st_img & [] & Hi & H)].
  apply bind_inv in H as [(e & _ & [=])|(st3 & pos_1 & Hm & H)].
  apply lift_inv in Hm as [-> Hpos_1].
  apply bind_inv in H as [(e & _ & [=])|(st3 & pos_2 & Hm & H)].
  apply lift_inv in Hm as [-> Hpos_2].
  apply bind_inv in H as [(e & _ & [=])|(st3 & other_affil & Hm & H)].
  apply lift_inv in Hm as [-> Hother].
  apply bind_inv in H as [(e & _ & [=])|(st_d & [] & Hd & H)].
  rewrite fetch_details_run in Hd.
  destruct (fetch_soup sv _) as [person_soup|e] eqn:Hsoup; [|done].
  cbv zeta in Hd.
  destruct (interests_text person_soup) as [interests|e] eqn:Hinterests; [|done].
  injection Hd as <-.
  apply bind_inv in H as [(e & _ & [=])|(st4 & bio & Hr & H)].
  apply read_inv in Hr as [-> Hbio].
  apply bind_inv in H as [(e & _ & [=])|(st4 & office & Hr & H)].
  apply read_inv in Hr as [-> Hoffice].
  apply bind_inv in H as [(e & _ & [=])|(st4 & email & Hr & H)].
  apply read_inv in Hr as [-> Hemail].
  apply bind_inv in H as [(e & _ & [=])|(st4 & interests' & Hr & H)].
  apply read_inv in Hr as [-> Hinterests'].
  apply bind_inv in H as [(e & _ & [=])|(st4 & image_file & Hr & H)].
  apply read_inv in Hr as [-> Himage_file].
  cbv zeta in H. unfold writerow in H. rewrite dict_to_list_row in H.
  unfold lift, write_record, sleep, modify, mbind, prog_bind in H.
  cbn [faculty_csv stdout downloads naps vars] in *.
  injection H as <-.
  rewrite lookup_insert_eq in Hinterests'. injection Hinterests' as <-.
  rewrite lookup_insert_ne, lookup_insert_eq in Hemail by done. injection Hemail as <-.
  rewrite !lookup_insert_ne, lookup_insert_eq in Hoffice by done. injection Hoffice as <-.
  rewrite !lookup_insert_ne, lookup_insert_eq in Hbio by done. injection Hbio as <-.
  rewrite !lookup_insert_ne in Himage_file by done.
  exists name_href, siblings, h, pos_1, pos_2, other_affil, person_soup, interests,
    image_file, st_img.
  by repeat split.
Qed.

(** X9: in a record that the final cell writes for a person who has a
    picture, the [image_file] column is the file name derived from that
    person's own name; the picture was downloaded, in one attempt, to the
    [images] directory of the working directory under that very name, and
    the download succeeded. *)
Theorem image_file_is_own_slug (person img : node) (siblings : list node)
    (st st' : state) :
  find "img" None person = Some (img, siblings) →
  scrape_person sv person st = (st', Ok ()) →
  ∃ name cells,
    record_name person = Some name
    ∧ faculty_csv st' = faculty_csv st ++ [cells]
    ∧ column "image_file" cells = Some (Slug.image_file_of name)
    ∧ downloads st'
      = downloads st
        ++ [(get "src" img, (getcwd sv +:+ "/images/") +:+ Slug.image_file_of name)]
    ∧ wget_download sv (get "src" img)
        ((getcwd sv +:+ "/images/") +:+ Slug.image_file_of name) = Ok ().
Proof.
  intros Himg Hrun. apply scrape_person_exact in Hrun.
  destruct Hrun as (name_href & sibs & h & pos_1 & pos_2 & other_affil & person_soup
                    & interests & image_file & st_img
                    & Hfind & _ & Hi & _ & _ & _ & _ & _ & Hvar & ->).
  rewrite (fetch_image_run _ _ _ _ _ Himg) in Hi. cbv zeta in Hi.
  destruct (wget_download sv _ _) as [[]|err] eqn:Hwget; [|done].
  injection Hi as <-.
  unfold image_file_var in Hvar. cbn [vars] in Hvar.
  rewrite lookup_insert_eq in Hvar. injection Hvar as <-.
  exists (get_text name_href). eexists.
  split; [unfold record_name; by rewrite Hfind|].
  split; [reflexivity|]. by repeat split.
Qed.

(** X10: the nine columns other than [image_file] of a record are the
    person's own: two runs of an iteration on the same record block, from
    any two states of the notebook, write records that agree on them; and
    when the block has a picture the records agree entirely. *)
Theorem columns_are_the_records_own (person : node) (st1 st1' st2 st2' : state) :
  scrape_person sv person st1 = (st1', Ok ()) →
  scrape_person sv person st2 = (st2', Ok ()) →
  ∃ cells1 cells2,
    faculty_csv st1' = faculty_csv st1 ++ [cells1]
    ∧ faculty_csv st2' = faculty_csv st2 ++ [cells2]
    ∧ take 9 cells1 = take 9 cells2
    ∧ (is_Some (find "img" None person) → cells1 = cells2).
Proof.
  intros Hrun1 Hrun2.
  apply scrape_person_exact in Hrun1, Hrun2.
  destruct Hrun1 as (name_href & sibs & h & pos_1 & pos_2 & other_affil & person_soup
                     & interests & image_file1 & st_img1
                     & Hfind & Hget & Hi1 & Hpos_1 & Hpos_2 & Hother & Hsoup & Hinterests
                     & Hvar1 & ->).
  destruct Hrun2 as (name_href' & sibs' & h' & pos_1' & pos_2' & other_affil' & person_soup'
                     & interests' & image_file2 & st_img2
                     & Hfind' & Hget' & Hi2 & Hpos_1' & Hpos_2' & Hother' & Hsoup'
                     & Hinterests' & Hvar2 & ->).
  rewrite Hfind in Hfind'. injection Hfind' as <- <-.
  rewrite Hget in Hget'. injection Hget' as <-.
  rewrite Hpos_1 in Hpos_1'. injection Hpos_1' as <-.
  rewrite Hpos_2 in Hpos_2'. injection Hpos_2' as <-.
  rewrite Hother in Hother'. injection Hother' as <-.
  rewrite Hsoup in Hsoup'. injection Hsoup' as <-.
  rewrite Hinterests in Hinterests'. injection Hinterests' as <-.
  pose proof (keeps_csv_fetch_image sv _ _ _ _ _ Hi1) as Hcsv1.
  pose proof (keeps_csv_fetch_image sv _ _ _ _ _ Hi2) as Hcsv2.
  cbn [faculty_csv] in *. rewrite Hcsv1, Hcsv2.
  eexists _, _. split; [reflexivity|]. split; [reflexivity|]. split; [reflexivity|].
  intros [[img img_siblings] Himg].
  rewrite (fetch_image_run _ _ _ _ _ Himg) in Hi1.
  rewrite (fetch_image_run _ _ _ _ _ Himg) in Hi2. cbv zeta in Hi1, Hi2.
  destruct (wget_download sv _ _) as [[]|err]; [|done].
  injection Hi1 as <-. injection Hi2 as <-.
  unfold image_file_var in Hvar1, Hvar2. cbn [vars] in Hvar1, Hvar2.
  rewrite lookup_insert_eq in Hvar1, Hvar2. congruence.
Qed.

(** X11: the request for the detail page is not guarded. When it raises
    for a person whose picture has just been downloaded, the exception
    leaves the loop: the picture is saved and [image_file] is bound, but no
    record is written for this person nor for any later one. *)
Theorem failed_detail_request_aborts (person : node) (next_people : list node)
    (st : state) (name_href img : node) (siblings img_siblings : list node)
    (h pos_1 pos_2 other_affil : string) (err : exn) :
  find "a" (Some "username") person = Some (name_href, siblings) →
  get "href" name_href = Some h →
  find "img" None person = Some (img, img_siblings) →
  wget_download sv (get "src" img)
    ((getcwd sv +:+ "/images/") +:+ Slug.image_file_of (get_text name_href)) = Ok () →
  find_text "div" "views-field-field-position-and-title-1" person = Ok pos_1 →
  find_text "div" "views-field-field-position-and-title-2" person = Ok pos_2 →
  find_text "div" "views-field-field-other-division" person = Ok other_affil →
  requests_get sv ("http://dusp.mit.edu" +:+ h) = Raise err →
  for_each (person :: next_people) (scrape_person sv) st
  = (State (faculty_csv st)
       (stdout st ++ ["Scraping " +:+ get_text name_href +:+ "..."])
       (downloads st
        ++ [(get "src" img,
             (getcwd sv +:+ "/images/") +:+ Slug.image_file_of (get_text name_href))])
       (naps st)
       (<["image_file" := VStr (Slug.image_file_of (get_text name_href))]> (vars st)),
     Raise err).
Proof.
  intros Hfind Hget Himg Hwget Hpos_1 Hpos_2 Hother Hreq.
  rewrite for_each_cons.
  rewrite (scrape_person_steps _ _ _ _ _ Hfind Hget).
  erewrite bind_ok; [|by rewrite (fetch_image_run _ _ _ _ _ Himg); cbv zeta; rewrite Hwget].
  rewrite (bind_lift_ok _ _ _ _ Hpos_1), (bind_lift_ok _ _ _ _ Hpos_2),
    (bind_lift_ok _ _ _ _ Hother).
  erewrite bind_raise; [reflexivity|].
  rewrite fetch_details_run. unfold fetch_soup.
  rewrite Hreq. reflexivity.
Qed.

(** X12: the value of the interests field is taken two siblings after
    its label, with no guard. On a detail page where the label is followed
    by fewer than two siblings the extraction raises AttributeError; the
    iteration raises, and neither this person nor a later one gets a
    record. *)
Theorem interests_label_without_value_aborts (person : node) (next_people : list node)
    (name_href label : node) (siblings following : list node) (h content : string)
    (st : state) :
  find "a" (Some "username") person = Some (name_href, siblings) →
  get "href" name_href = Some h →
  requests_get sv ("http://dusp.mit.edu" +:+ h) = Ok content →
  find "strong" (Some "views-label views-label-field-areas-of-interest")
    (html_parser sv content) = Some (label, following) →
  length following < 2 →
  (∃ msg, interests_text (html_parser sv content) = Raise (MkExn AttributeError msg))
  ∧ ∃ st' e,
      for_each (person :: next_people) (scrape_person sv) st = (st', Raise e)
      ∧ faculty_csv st' = faculty_csv st.
Proof.
  intros Hfind Hget Hreq Hlabel Hshort.
  assert (Hraise : ∃ msg,
             interests_text (html_parser sv content) = Raise (MkExn AttributeError msg)).
  { unfold interests_text. rewrite Hlabel. unfold second_sibling_text.
    destruct following as [|n1 [|n2 following]]; simpl in Hshort; [| |lia]; by eexists. }
  split; [exact Hraise|]. destruct Hraise as [msg Hraise].
  rewrite for_each_cons.
  destruct (scrape_person sv person st) as [st' [[]|e]] eqn:Hrun.
  - apply scrape_person_exact in Hrun.
    destruct Hrun as (name_href' & sibs & h' & pos_1 & pos_2 & other_affil & person_soup
                      & interests & image_file & st_img
                      & Hfind' & Hget' & _ & _ & _ & _ & Hsoup & Hinterests & _).
    rewrite Hfind in Hfind'. injection Hfind' as <- <-.
    rewrite Hget in Hget'. injection Hget' as <-.
    unfold fetch_soup in Hsoup. rewrite Hreq in Hsoup. injection Hsoup as <-.
    congruence.
  - exists st', e. split; [reflexivity|].
    exact (scrape_person_inv sv _ _ _ _ Hrun).
Qed.

(** X13: the address of the detail page is built with no guard. For a
    record block whose link has no [href] attribute the concatenation
    raises TypeError right after the progress message: nothing is
    downloaded or requested, and neither this person nor a later one gets a
    record. *)
Theorem link_without_address_aborts (person : node) (next_people : list node)
    (name_href : node) (siblings : list node) (st : state) :
  find "a" (Some "username") person = Some (name_href, siblings) →
  get "href" name_href = None →
  ∃ msg,
    for_each (person :: next_people) (scrape_person sv) st
    = (State (faculty_csv st)
         (stdout st ++ ["Scraping " +:+ get_text name_href +:+ "..."])
         (downloads st) (naps st) (vars st),
       Raise (MkExn TypeError msg)).
Proof.
  intros Hfind Hget. eexists.
  rewrite for_each_cons. unfold scrape_person.
  erewrite bind_lift_ok; [|by rewrite Hfind].
  cbv zeta. cbn [fst].
  erewrite bind_ok; [|reflexivity].
  erewrite bind_lift_raise; [reflexivity|].
  by rewrite Hget.
Qed.

(** X14: the [href] column of a record is the site address followed by
    the address of the person's link, and the four detail columns are read
    from the page served for exactly that address: the text of the field
    when the page has it, the empty string when it has not (and for the
    interests, the text of the second sibling after the label). *)
Theorem detail_columns_come_from_own_page (person : node) (st st' : state) :
  scrape_person sv person st = (st', Ok ()) →
  ∃ name_href siblings h content cells,
    find "a" (Some "username") person = Some (name_href, siblings)
    ∧ get "href" name_href = Some h
    ∧ requests_get sv ("http://dusp.mit.edu" +:+ h) = Ok content
    ∧ faculty_csv st' = faculty_csv st ++ [cells]
    ∧ column "href" cells = Some ("http://dusp.mit.edu" +:+ h)
    ∧ let page := html_parser sv content in
      let text_of (found : option (node * list node)) :=
        match found with Some (tag, _) => get_text tag | None => "" end in
      column "bio" cells = Some (text_of (find "div" (Some "pane-user-field-bio") page))
      ∧ column "office" cells
        = Some (text_of (find "div" (Some "views-field views-field-field-office") page))
      ∧ column "email" cells
        = Some (text_of
                  (find "div" (Some "views-field views-field-field-secondary-email") page))
      ∧ match find "strong" (Some "views-label views-label-field-areas-of-interest") page
        with
        | Some (_, following) =>
            ∃ n, following !! 1 = Some n ∧ column "interests" cells = Some (get_text n)
        | None => column "interests" cells = Some ""
        end.
Proof.
  intros Hrun. apply scrape_person_exact in Hrun.
  destruct Hrun as (name_href & sibs & h & pos_1 & pos_2 & other_affil & person_soup
                    & interests & image_file & st_img
                    & Hfind & Hget & Hi & _ & _ & _ & Hsoup & Hinterests & _ & ->).
  unfold fetch_soup in Hsoup.
  destruct (requests_get sv _) as [content|e] eqn:Hreq; [|done].
  injection Hsoup as <-.
  exists name_href, sibs, h, content. eexists.
  split; [done|]. split; [done|]. split; [done|].
  split. { cbn [faculty_csv]. by rewrite (keeps_csv_fetch_image sv _ _ _ _ _ Hi). }
  split; [reflexivity|]. cbv zeta.
  unfold interests_text, second_sibling_text in Hinterests.
  unfold optional_text.
  split. { by destruct (find "div" (Some "pane-user-field-bio") _) as [[]|]. }
  split. { by destruct (find "div" (Some "views-field views-field-field-office") _) as [[]|]. }
  split.
  { by destruct (find "div" (Some "views-field views-field-field-secondary-email") _)
      as [[]|]. }
  destruct (find "strong" _ _) as [[label following]|].
  - destruct (following !! 0) as [n0|]; [|done].
    destruct (following !! 1) as [n|]; [|done].
    injection Hinterests as <-. by exists n.
  - by injection Hinterests as <-.
Qed.

End ScrapingMore.

(** ** The first cell that writes [faculty.csv] *)

Section FirstCellFacts.

Import Html Scraping.

Variable sv : services.

Lemma read_ok (x : string) (v : value) (st : state) :
  vars st !! x = Some v → read x st = (st, Ok v).
Proof. intros Hx. unfold read. by rewrite Hx. Qed.

Lemma first_dict_to_list_row (v0 v1 v2 v3 v4 v5 v6 v7 v8 : value) :
  Csv.dict_to_list FirstCells.field_names
    (Csv.Row (list_to_map
       [("name", v0); ("href", v1); ("pos_1", v2); ("pos_2", v3); ("other_affil", v4);
        ("bio", v5); ("office", v6); ("email", v7); ("interests", v8)]) None)
  = Ok (cell_text <$> [v0; v1; v2; v3; v4; v5; v6; v7; v8]).
Proof. reflexivity. Qed.

(** One iteration of the first cell, for a block whose link has an
    address: the steps in the order of the code, each one ending the
    iteration when it raises. *)
Lemma first_scrape_run (person name_href : node) (siblings : list node) (h : string)
    (st : state) :
  find "a" (Some "username") person = Some (name_href, siblings) →
  get "href" name_href = Some h →
  FirstCells.scrape_person sv person st
  = match find_text "div" "views-field-field-position-and-title-1" person with
    | Raise e => (st, Raise e)
    | Ok pos_1 =>
    match find_text "div" "views-field-field-position-and-title-2" person with
    | Raise e => (st, Raise e)
    | Ok pos_2 =>
    match find_text "div" "views-field-field-other-division" person with
    | Raise e => (st, Raise e)
    | Ok other_affil =>
    match fetch_soup sv (VStr ("http://dusp.mit.edu" +:+ h)) with
    | Raise e => (st, Raise e)
    | Ok person_soup =>
        let bio := optional_text "div" "pane-user-field-bio" person_soup in
        let office := optional_text "div" "views-field views-field-field-office" person_soup in
        let email :=
          optional_text "div" "views-field views-field-field-secondary-email" person_soup in
        let vars3 := <["email" := email]> (<["office" := office]> (<["bio" := bio]> (vars st))) in
        match interests_text person_soup with
        | Raise e =>
            (State (faculty_csv st) (stdout st) (downloads st) (naps st) vars3, Raise e)
        | Ok interests =>
            (State
               (faculty_csv st
                ++ [[get_text name_href; "http://dusp.mit.edu" +:+ h; pos_1; pos_2;
                     other_affil; cell_text bio; cell_text office; cell_text email;
                     cell_text interests]])
               (stdout st) (downloads st) (naps st) (<["interests" := interests]> vars3),
             Ok ())
        end
    end end end end.
Proof.
  intros Hfind Hget. unfold FirstCells.scrape_person.
  erewrite bind_lift_ok; [|by rewrite Hfind].
  cbv zeta. cbn [fst].
  erewrite bind_lift_ok; [|by rewrite Hget].
  destruct (find_text "div" "views-field-field-position-and-title-1" person)
    as [pos_1|e]; [|reflexivity].
  rewrite (bind_lift_ok (Ok pos_1) _ _ pos_1 eq_refl).
  destruct (find_text "div" "views-field-field-position-and-title-2" person)
    as [pos_2|e]; [|reflexivity].
  rewrite (bind_lift_ok (Ok pos_2) _ _ pos_2 eq_refl).
  destruct (find_text "div" "views-field-field-other-division" person)
    as [other_affil|e]; [|reflexivity].
  rewrite (bind_lift_ok (Ok other_affil) _ _ other_affil eq_refl).
  pose proof (fetch_details_run sv h st) as Hd.
  destruct (fetch_soup sv _) as [person_soup|e]; [|by erewrite bind_raise].
  cbv zeta in Hd.
  destruct (interests_text person_soup) as [interests|e]; [|by erewrite bind_raise].
  erewrite bind_ok; [|exact Hd].
  erewrite bind_ok;
    [|apply read_ok; cbn [vars]; by rewrite !lookup_insert_ne, lookup_insert_eq by done].
  erewrite bind_ok;
    [|apply read_ok; cbn [vars]; by rewrite !lookup_insert_ne, lookup_insert_eq by done].
  erewrite bind_ok;
    [|apply read_ok; cbn [vars]; by rewrite !lookup_insert_ne, lookup_insert_eq by done].
  erewrite bind_ok; [|apply read_ok; cbn [vars]; by rewrite lookup_insert_eq].
  cbv zeta. unfold FirstCells.writerow. rewrite first_dict_to_list_row.
  reflexivity.
Qed.

(** However an iteration of the first cell ends, it has printed nothing,
    downloaded nothing and not slept; it has written one record of nine
    cells under the person's name when it ended normally, none otherwise. *)
Lemma first_scrape_inv (person : node) (st st' : state) (r : result ()) :
  FirstCells.scrape_person sv person st = (st', r) →
  stdout st' = stdout st ∧ downloads st' = downloads st ∧ naps st' = naps st
  ∧ match r with
    | Raise _ => faculty_csv st' = faculty_csv st
    | Ok _ =>
        ∃ cells,
          faculty_csv st' = faculty_csv st ++ [cells]
          ∧ length cells = 9 ∧ head cells = record_name person
    end.
Proof.
  intros Hrun.
  destruct (find "a" (Some "username") person) as [[name_href siblings]|] eqn:Hfind.
  2: { unfold FirstCells.scrape_person in Hrun.
       erewrite bind_lift_raise in Hrun; [|by rewrite Hfind].
       by injection Hrun as <- <-. }
  destruct (get "href" name_href) as [h|] eqn:Hget.
  2: { unfold FirstCells.scrape_person in Hrun.
       erewrite bind_lift_ok in Hrun; [|by rewrite Hfind].
       cbv zeta in Hrun. cbn [fst] in Hrun.
       erewrite bind_lift_raise in Hrun; [|by rewrite Hget].
       by injection Hrun as <- <-. }
  rewrite (first_scrape_run _ _ _ _ _ Hfind Hget) in Hrun.
  destruct (find_text "div" "views-field-field-position-and-title-1" person);
    [|by injection Hrun as <- <-].
  destruct (find_text "div" "views-field-field-position-and-title-2" person);
    [|by injection Hrun as <- <-].
  destruct (find_text "div" "views-field-field-other-division" person);
    [|by injection Hrun as <- <-].
  destruct (fetch_soup sv _) as [person_soup|e]; [|by injection Hrun as <- <-].
  cbv zeta in Hrun.
  destruct (interests_text person_soup); injection Hrun as <- <-; [|done].
  repeat split. eexists. split; [reflexivity|]. split; [reflexivity|].
  unfold record_name. by rewrite Hfind.
Qed.

Lemma for_each_first (people : list node) :
  ∀ (st st' : state) (r : result ()),
    for_each people (FirstCells.scrape_person sv) st = (st', r) →
    ∃ rows,
      faculty_csv st' = faculty_csv st ++ rows
      ∧ Forall2 (fun person cells => head cells = record_name person ∧ length cells = 9)
          (take (length rows) people) rows
      ∧ (r = Ok () → length rows = length people)
      ∧ stdout st' = stdout st ∧ downloads st' = downloads st ∧ naps st' = naps st.
Proof.
  induction people as [|person people IH]; intros st st' r Hrun.
  - injection Hrun as <- <-. exists []. rewrite app_nil_r.
    repeat split. constructor.
  - rewrite for_each_cons in Hrun.
    destruct (FirstCells.scrape_person sv person st) as [st1 [[]|e]] eqn:Hstep;
      apply first_scrape_inv in Hstep as (Hout & Hdl & Hnaps & Hstep).
    + destruct Hstep as (cells & Hcsv & Hlen & Hhead).
      destruct (IH _ _ _ Hrun) as (rows & Hcsv' & Hrows & Hall & Hout' & Hdl' & Hnaps').
      exists (cells :: rows). rewrite Hcsv', Hcsv, <- app_assoc.
      split; [reflexivity|]. split; [by constructor|].
      split; [intros Hr; simpl; by rewrite Hall|]. repeat split; congruence.
    + injection Hrun as <- <-. exists []. rewrite app_nil_r.
      split; [done|]. split; [constructor|]. by split.
Qed.

(** X15: the first cell that writes the file goes through the first three
    record blocks only. Whatever the page holds and however the cell ends,
    the file starts with the nine-column header followed by at most three
    records, of nine cells each, for the first people of the page in
    order, and all of the first three (or all there are) when the cell
    ends normally; nothing is printed or downloaded and the cell does not
    pause between requests. *)
Theorem first_cell_writes_at_most_three (people : list node) (st0 : state) :
  let run := FirstCells.faculty_cell sv people st0 in
  ∃ rows,
    faculty_csv run.1 = FirstCells.field_names :: rows
    ∧ length rows ≤ 3
    ∧ Forall2 (fun person cells => head cells = record_name person ∧ length cells = 9)
        (take (length rows) people) rows
    ∧ (run.2 = Ok () → length rows = length people `min` 3)
    ∧ stdout run.1 = stdout st0 ∧ downloads run.1 = downloads st0 ∧ naps run.1 = naps st0.
Proof.
  intros run.
  assert (Hrun : run = for_each (take 3 people) (FirstCells.scrape_person sv)
                         (State [FirstCells.field_names] (stdout st0) (downloads st0)
                            (naps st0) (vars st0))) by reflexivity.
  destruct run as [st' r]. symmetry in Hrun.
  apply for_each_first in Hrun as (rows & Hcsv & Hrows & Hall & Hout & Hdl & Hnaps).
  exists rows. cbn [fst snd faculty_csv stdout downloads naps] in *.
  pose proof (Forall2_length _ _ _ Hrows) as Hlen.
  rewrite !length_take in Hlen.
  split; [done|]. split; [lia|].
  split. { rewrite take_take in Hrows. by replace (length rows `min` 3) with (length rows)
             in Hrows by lia. }
  split; [|done]. intros Hr. rewrite (Hall Hr), length_take. lia.
Qed.

(** X16: the final cell extends the first one by the picture. Whenever an
    iteration of the final cell ends normally, the iteration of the first
    cell on the same record block ends normally too, from any state, and
    writes the first nine cells of the final cell's record; it prints
    nothing, downloads nothing and does not pause. *)
Theorem first_cell_writes_the_same_columns (person : node) (st st' st1 : state) :
  scrape_person sv person st = (st', Ok ()) →
  ∃ cells vars1,
    faculty_csv st' = faculty_csv st ++ [cells]
    ∧ length cells = 10
    ∧ FirstCells.scrape_person sv person st1
      = (State (faculty_csv st1 ++ [take 9 cells]) (stdout st1) (downloads st1) (naps st1)
           vars1,
         Ok ()).
Proof.
  intros Hrun. apply scrape_person_inv in Hrun.
  destruct Hrun as (name_href & siblings & h & pos_1 & pos_2 & other_affil
                    & person_soup & interests & image_file
                    & Hfind & Hget & Hpos_1 & Hpos_2 & Hother & Hsoup & Hinterests
                    & _ & _ & Hcsv).
  eexists _, _. split; [exact Hcsv|]. split; [reflexivity|].
  rewrite (first_scrape_run _ _ _ _ _ Hfind Hget).
  rewrite Hpos_1, Hpos_2, Hother, Hsoup. cbv zeta. rewrite Hinterests.
  reflexivity.
Qed.

End FirstCellFacts.

(** ** More on the API key and on the image file name *)

Section EnvMore.
Import Env.

Lemma dotenv_values_snoc (lines : list Dotenv.binding) (k : string) (v : option string) :
  Dotenv.dotenv_values (lines ++ [(k, v)]) = <[k := v]> (Dotenv.dotenv_values lines).
Proof. unfold Dotenv.dotenv_values. by rewrite foldl_app. Qed.

Lemma dotenv_values_lookup (lines : list Dotenv.binding) (name : string) :
  Dotenv.dotenv_values lines !! name
  = snd <$> last (filter (fun kv => kv.1 = name) lines).
Proof.
  induction lines as [|[k v] lines IH] using rev_ind; [done|].
  rewrite dotenv_values_snoc, filter_app.
  destruct (decide (k = name)) as [->|Hne].
  - rewrite lookup_insert_eq.
    rewrite (filter_cons_True _ (name, v)) by done.
    rewrite filter_nil. by rewrite last_snoc.
  - rewrite lookup_insert_ne by done.
    rewrite (filter_cons_False _ (k, v)) by done.
    rewrite filter_nil, app_nil_r. exact IH.
Qed.

(** A file in which every line has a value is read as before. *)
Lemma dotenv_values_valued (bindings : list (string * string)) :
  omap id (Dotenv.dotenv_values (Dotenv.valued bindings)) = dotenv_dict bindings.
Proof.
  apply map_eq. intros name. rewrite lookup_omap.
  induction bindings as [|[k v] bindings IH] using rev_ind; [done|].
  unfold Dotenv.valued. rewrite fmap_app. cbn [fmap list_fmap fst snd].
  rewrite dotenv_values_snoc, dotenv_dict_snoc.
  destruct (decide (k = name)) as [->|Hne].
  - by rewrite !lookup_insert_eq.
  - rewrite !lookup_insert_ne by done. exact IH.
Qed.

(** X17: which key reaches the client. A value of [ORSKEY] in the process
    environment always wins over the [.env] file. Without one, the last
    line of the file that names [ORSKEY] decides: its value is the key, and
    there is no key ([key=None]) when that line is a bare [ORSKEY], even
    after an earlier line with a value. There is no key either when neither
    the environment nor the file has the variable, whatever else is
    defined. On a file in which every line has a value, this is the key of
    [Env.make_client]. *)
Theorem client_key_precedence (dotenv : option (list Dotenv.binding))
    (environ : gmap string string) :
  key (Dotenv.make_client dotenv environ)
  = match environ !! variable_read with
    | Some k => Some k
    | None =>
        match dotenv with
        | Some lines =>
            match last (filter (fun kv => kv.1 = variable_read) lines) with
            | Some (_, value) => value
            | None => None
            end
        | None => None
        end
    end
  ∧ ∀ bindings : list (string * string),
      make_client (Some bindings) environ
      = Dotenv.make_client (Some (Dotenv.valued bindings)) environ.
Proof.
  split.
  - unfold Dotenv.make_client, getenv, Dotenv.load_dotenv. cbn [key].
    destruct (environ !! variable_read) as [k|] eqn:Henv.
    + destruct dotenv as [lines|]; [|done]. by apply lookup_union_Some_l.
    + destruct dotenv as [lines|]; [|done].
      rewrite lookup_union_r by done.
      rewrite lookup_omap, dotenv_values_lookup.
      by destruct (last _) as [[k value]|].
  - intros bindings.
    unfold make_client, Dotenv.make_client, load_dotenv, Dotenv.load_dotenv.
    by rewrite dotenv_values_valued.
Qed.

End EnvMore.

Section SlugMore.
Import Slug.

Lemma lower_ascii_space (c : ascii) : Ascii.eqb " " (lower_ascii c) = Ascii.eqb c " ".
Proof. destruct c as [[] [] [] [] [] [] [] []]; reflexivity. Qed.

Lemma small_letter_code (c : ascii) :
  (nat_of_ascii (small_letter c) <? 65)%nat || (90 <? nat_of_ascii (small_letter c))%nat
  = true.
Proof. destruct c as [[] [] [] [] [] [] [] []]; reflexivity. Qed.

Lemma small_letter_ascii (c : ascii) :
  (nat_of_ascii (small_letter c) <? 128)%nat = (nat_of_ascii c <? 128)%nat.
Proof. destruct c as [[] [] [] [] [] [] [] []]; reflexivity. Qed.

(** The characters a name contributes to the file name. *)
Lemma slug_char_safe (c a : ascii) :
  a ∈ Stdlib.Strings.String.list_ascii_of_string (slug_char c) →
  a ≠ " "%char ∧ a ≠ "."%char ∧ ¬ (65 ≤ nat_of_ascii a ≤ 90).
Proof.
  unfold slug_char.
  destruct (Ascii.eqb c " ") eqn:Hspace.
  { intros ->%list_elem_of_singleton. split; [done|]. split; [done|].
    change (nat_of_ascii "_") with 95. lia. }
  destruct (Ascii.eqb c ".") eqn:Hperiod.
  { by intros ?%elem_of_nil. }
  intros ->%list_elem_of_singleton.
  rewrite <- lower_ascii_space in Hspace. rewrite <- lower_ascii_period in Hperiod.
  rewrite lower_ascii_small in Hspace, Hperiod.
  apply Ascii.eqb_neq in Hspace, Hperiod.
  split; [congruence|]. split; [congruence|].
  pose proof (small_letter_code c) as Hcode.
  apply orb_true_iff in Hcode as [Hcode%Nat.ltb_lt|Hcode%Nat.ltb_lt]; lia.
Qed.

Lemma list_ascii_of_string_app (s1 s2 : string) :
  Stdlib.Strings.String.list_ascii_of_string (s1 +:+ s2)
  = Stdlib.Strings.String.list_ascii_of_string s1
    ++ Stdlib.Strings.String.list_ascii_of_string s2.
Proof.
  induction s1 as [|c s1 IH]; [done|].
  rewrite string_app_cons. simpl. by rewrite IH.
Qed.

Lemma slug_char_length (c : ascii) : String.length (slug_char c) ≤ 1.
Proof.
  unfold slug_char. destruct (Ascii.eqb c " "); [simpl; lia|].
  destruct (Ascii.eqb c "."); simpl; lia.
Qed.

Lemma string_length_app (s1 s2 : string) :
  String.length (s1 +:+ s2) = String.length s1 + String.length s2.
Proof.
  induction s1 as [|c s1 IH]; [done|].
  rewrite string_app_cons. simpl. by rewrite IH.
Qed.

Lemma is_ascii_app (s1 s2 : string) :
  is_ascii (s1 +:+ s2) = is_ascii s1 && is_ascii s2.
Proof.
  induction s1 as [|c s1 IH]; [done|].
  rewrite string_app_cons. simpl. by rewrite IH, andb_assoc.
Qed.

Lemma slug_char_ascii (c : ascii) :
  (nat_of_ascii c <? 128)%nat = true → is_ascii (slug_char c) = true.
Proof.
  intros Hc. unfold slug_char. destruct (Ascii.eqb c " "); [done|].
  destruct (Ascii.eqb c "."); [done|].
  cbn [is_ascii]. by rewrite small_letter_ascii, Hc.
Qed.

(** X18: for a name of ASCII characters, the file name is a stem followed
    by [.jpg]; the stem is no longer than the name, it is made of ASCII
    characters, and none of them is a space, a period or a capital letter
    (codes 65 to 90): the suffix holds the only period of the file name. *)
Theorem image_file_is_clean (name : string) :
  is_ascii name = true →
  ∃ stem,
    image_file_of name = stem +:+ ".jpg"
    ∧ String.length stem ≤ String.length name
    ∧ is_ascii stem = true
    ∧ ∀ a, a ∈ Stdlib.Strings.String.list_ascii_of_string stem →
           a ≠ " "%char ∧ a ≠ "."%char ∧ ¬ (65 ≤ nat_of_ascii a ≤ 90).
Proof.
  intros Hascii.
  exists (map_chars slug_char name). split; [apply image_file_stem|].
  induction name as [|c name IH].
  { split; [done|]. split; [done|]. by intros a Ha%elem_of_nil. }
  cbn [is_ascii] in Hascii. apply andb_true_iff in Hascii as [Hc Hname].
  destruct (IH Hname) as (IHlen & IHascii & IHchars).
  cbn [map_chars]. split; [|split].
  - rewrite string_length_app. pose proof (slug_char_length c). simpl. lia.
  - by rewrite is_ascii_app, (slug_char_ascii c Hc), IHascii.
  - intros a Ha. rewrite list_ascii_of_string_app in Ha.
    apply elem_of_app in Ha as [Ha|Ha]; [by eapply slug_char_safe|by apply IHchars].
Qed.

End SlugMore.

(** ** The single requests *)

Section RequestsFacts.
Import Requests.

(** X19: a single request and the dump that follows it. When the request
    succeeds the response is shown and the file holds it. When the request
    raises, the error is shown and the variable is left as it was: the dump
    then writes whatever response an earlier run left in the variable, or,
    on a fresh kernel, raises NameError before the file is opened, so that
    no file is created or truncated. *)
Theorem dump_writes_the_last_response (x file : string) (answer : result Isochrone.json)
    (st : state) :
  let run := (_ ← request_cell x answer; dump_cell x file) st in
  match answer with
  | Ok response =>
      run = (State (<[x := response]> (vars st)) (stdout st ++ [ShownJson response])
               (<[file := response]> (files st)),
             Ok ())
  | Raise err =>
      vars run.1 = vars st
      ∧ stdout run.1 = stdout st ++ [ShownExn err]
      ∧ match vars st !! x with
        | Some stale => files run.1 = <[file := stale]> (files st) ∧ run.2 = Ok ()
        | None =>
            files run.1 = files st
            ∧ ∃ msg, run.2 = Raise (MkExn NameError msg)
        end
  end.
Proof.
  intros run. subst run.
  unfold request_cell, dump_cell, try_except, read, write_file, assign, pprint, modify,
    lift, mbind, prog_bind.
  destruct answer as [response|err]; cbn [any_exception vars stdout files].
  - by rewrite lookup_insert_eq.
  - destruct (vars st !! x) as [stale|]; cbn [fst snd vars stdout files]; [done|].
    repeat split. by eexists.
Qed.

End RequestsFacts.

(** The route and the isochrone cells when the service is down: on a fresh
    kernel nothing is written; after an earlier success the earlier
    response is written again. *)
Example route_dump_fresh :
  (_ ← Requests.route_cell MoreSamples.down; Requests.route_dump) (Requests.State ∅ [] ∅)
  = (Requests.State ∅ [Requests.ShownExn Samples.rate_limited] ∅,
     Raise (MkExn NameError "name 'route' is not defined")).
Proof. reflexivity. Qed.

Example isochrone_dump_stale :
  Requests.files
    ((_ ← Requests.isochrone_cell MoreSamples.down; Requests.isochrone_dump)
       (Requests.State {["request" := Samples.response]} [] ∅)).1
  = {["single_isochrone.geojson" := Samples.response]}.
Proof. reflexivity. Qed.

(** ** The further properties on sample inputs *)

Lemma one_request_per_row_witness :
  Cells.has_coordinates Samples.stations = true
  ∧ ∃ st, Isochrone.batch Samples.routing (Some Samples.stations) Isochrone.initial
          = (st, Ok ())
          ∧ Forall2 (fun line p => Isochrone.line_params line = Ok p)
              (Csv.dict_rows Samples.stations) (Isochrone.requests st).
Proof.
  split; [reflexivity|].
  apply (one_request_per_row Samples.routing Samples.stations). reflexivity.
Defined.

Lemma long_record_is_requested_then_refused_witness :
  let header := ["STATION"; "X"; "Y"] in
  let cells := ["Davis"; "-71.122"; "42.397"; "Red Line"] in
  length header < length cells
  ∧ ∃ p, Isochrone.line_params (Csv.dict_row header cells) = Ok p
         ∧ Isochrone.process_line Samples.routing (header ++ ["geom"])
             (Csv.dict_row header cells) Isochrone.initial
           = (Isochrone.State None
                [Isochrone.PPrinted
                   (MkExn ValueError "dict contains fields not in fieldnames")]
                [p] 2,
              Ok ()).
Proof.
  intros header cells. split; [simpl; lia|].
  apply (long_record_is_requested_then_refused Samples.routing header cells
           (header ++ ["geom"]) "POLYGON ((-71.1 42.3, -71.2 42.4, -71.1 42.3))"
           Isochrone.initial).
  - apply list_elem_of_further, list_elem_of_here.
  - apply list_elem_of_further, list_elem_of_further, list_elem_of_here.
  - simpl; lia.
  - reflexivity.
Defined.

Lemma missing_coordinate_column_witness :
  let header := ["STATION"; "LON"; "Y"] in
  let data := [["Harvard"; "-71.119"; "42.373"]] in
  ("X" ∉ header)
  ∧ ∃ st name,
      Isochrone.batch Samples.routing (Some (header :: data)) Isochrone.initial
      = (st, Raise (MkExn KeyError name))
      ∧ (name = "X" ∨ name = "Y")
      ∧ Isochrone.outcsv st = Some [header ++ ["geom"]]
      ∧ Isochrone.requests st = []
      ∧ Isochrone.stdout st = [].
Proof.
  intros header data.
  assert (Hx : "X" ∉ header).
  { intros Hin. repeat (apply elem_of_cons in Hin as [Hin|Hin]; [discriminate Hin|]).
    by apply elem_of_nil in Hin. }
  split; [exact Hx|].
  apply (missing_coordinate_column Samples.routing header data).
  - by left.
  - exists ["Harvard"; "-71.119"; "42.373"]. split; [apply list_elem_of_here|discriminate].
Defined.

Lemma input_cells_are_carried_over_witness :
  let header := ["STATION"; "X"; "Y"; "LINE"] in
  let cells := ["Porter"; "-71.119"; "42.388"] in
  let wkt := "POLYGON ((-71.1 42.3, -71.2 42.4, -71.1 42.3))" in
  Isochrone.line_wkt Samples.routing (Csv.dict_row header cells) = Ok wkt
  ∧ Isochrone.outcsv
      (Isochrone.process_line Samples.routing (header ++ ["geom"])
         (Csv.dict_row header cells) Isochrone.initial).1
    = Some [["Porter"; "-71.119"; "42.388"; ""; wkt]].
Proof.
  intros header cells wkt. split; [reflexivity|].
  assert (Hgeom : "geom" ∉ header).
  { intros Hin. repeat (apply elem_of_cons in Hin as [Hin|Hin]; [discriminate Hin|]).
    by apply elem_of_nil in Hin. }
  assert (Hnodup : NoDup header).
  { repeat (apply NoDup_cons; split;
            [intros Hin; repeat (apply elem_of_cons in Hin as [Hin|Hin]; [discriminate Hin|]);
             by apply elem_of_nil in Hin|]).
    apply NoDup_nil_2. }
  assert (Hlen : length cells ≤ length header) by (simpl; lia).
  exact (proj2 (input_cells_are_carried_over Samples.routing header cells wkt
                  Hnodup Hgeom Hlen eq_refl) Isochrone.initial).
Defined.

Lemma reports_and_sleeps_witness :
  Isochrone.valid_csv Samples.stations = true
  ∧ Isochrone.stdout
      (Isochrone.batch Samples.routing (Some Samples.stations) Isochrone.initial).1
    = [Isochrone.PPrinted Samples.rate_limited]
  ∧ Isochrone.slept
      (Isochrone.batch Samples.routing (Some Samples.stations) Isochrone.initial).1 = 6.
Proof.
  split; [reflexivity|].
  destruct (reports_and_sleeps Samples.routing Samples.stations eq_refl)
    as (Hout & Hslept & _).
  split; [rewrite Hout|rewrite Hslept]; reflexivity.
Defined.

Lemma preview_prints_what_batch_writes_witness :
  let b := (Isochrone.batch Samples.routing (Some Samples.stations) Isochrone.initial).1 in
  let p := Cells.preview Samples.routing (Some Samples.stations) Isochrone.initial in
  Isochrone.valid_csv Samples.stations = true
  ∧ p.2 = Ok ()
  ∧ Isochrone.outcsv p.1 = None
  ∧ Forall2 (fun cells wkt => last cells = Some wkt)
      (tail (default [] (Isochrone.outcsv b))) (Cells.printed_texts (Isochrone.stdout p.1))
  ∧ Cells.printed_errors (Isochrone.stdout p.1) = Cells.printed_errors (Isochrone.stdout b)
  ∧ Isochrone.slept p.1 = Isochrone.slept b.
Proof.
  intros b p. split; [reflexivity|].
  apply (preview_prints_what_batch_writes Samples.routing Samples.stations). reflexivity.
Defined.

Lemma stations_are_listed_witness :
  Cells.print_stations (Some Samples.stations) Isochrone.initial
  = (Isochrone.State None
       [Isochrone.Printed "Harvard"; Isochrone.Printed "Kendall/MIT";
        Isochrone.Printed "Davis"; Isochrone.Printed "Porter"]
       [] 0,
     Ok ()).
Proof.
  assert (Hnodup : NoDup ["STATION"; "X"; "Y"]).
  { repeat (apply NoDup_cons; split;
            [intros Hin; repeat (apply elem_of_cons in Hin as [Hin|Hin]; [discriminate Hin|]);
             by apply elem_of_nil in Hin|]).
    apply NoDup_nil_2. }
  exact (stations_are_listed ["STATION"; "X"; "Y"] (tail Samples.stations) 0 Hnodup eq_refl).
Defined.

Lemma image_file_is_own_slug_witness :
  let st := Scraping.State [Scraping.field_names] [] [] 0 ∅ in
  let st' := (Scraping.scrape_person (Samples.web true) Samples.cherie st).1 in
  Scraping.scrape_person (Samples.web true) Samples.cherie st = (st', Ok ())
  ∧ ∃ name cells,
      Scraping.record_name Samples.cherie = Some name
      ∧ Scraping.faculty_csv st' = Scraping.faculty_csv st ++ [cells]
      ∧ Scraping.column "image_file" cells = Some (Slug.image_file_of name)
      ∧ Scraping.downloads st'
        = Scraping.downloads st
          ++ [(Some "http://dusp.mit.edu/pictures/Cherie Abbanat",
               ("/home/user/python-bs" +:+ "/images/") +:+ Slug.image_file_of name)]
      ∧ Scraping.wget_download (Samples.web true)
          (Some "http://dusp.mit.edu/pictures/Cherie Abbanat")
          (("/home/user/python-bs" +:+ "/images/") +:+ Slug.image_file_of name) = Ok ().
Proof.
  intros st st'.
  assert (Hrun : Scraping.scrape_person (Samples.web true) Samples.cherie st = (st', Ok ()))
    by (vm_compute; reflexivity).
  split; [exact Hrun|].
  exact (image_file_is_own_slug (Samples.web true) Samples.cherie
           (Html.Tag "img" []
              [("alt", ""); ("src", "http://dusp.mit.edu/pictures/Cherie Abbanat")] [])
           [] st st' eq_refl Hrun).
Defined.

Lemma columns_are_the_records_own_witness :
  let st1 := Scraping.State [Scraping.field_names] [] [] 0 ∅ in
  let st2 := Scraping.State [] ["Scraping..."] [] 7 {["image_file" := VStr "other.jpg"]} in
  let st1' := (Scraping.scrape_person (Samples.web true) Samples.cherie st1).1 in
  let st2' := (Scraping.scrape_person (Samples.web true) Samples.cherie st2).1 in
  Scraping.scrape_person (Samples.web true) Samples.cherie st2 = (st2', Ok ())
  ∧ ∃ cells1 cells2,
      Scraping.faculty_csv st1' = Scraping.faculty_csv st1 ++ [cells1]
      ∧ Scraping.faculty_csv st2' = Scraping.faculty_csv st2 ++ [cells2]
      ∧ take 9 cells1 = take 9 cells2
      ∧ (is_Some (Html.find "img" None Samples.cherie) → cells1 = cells2).
Proof.
  intros st1 st2 st1' st2'.
  assert (Hrun2 : Scraping.scrape_person (Samples.web true) Samples.cherie st2 = (st2', Ok ()))
    by (vm_compute; reflexivity).
  split; [exact Hrun2|].
  apply (columns_are_the_records_own (Samples.web true) Samples.cherie st1 st1' st2 st2');
    [|exact Hrun2].
  vm_compute; reflexivity.
Defined.

Lemma failed_detail_request_aborts_witness :
  for_each [Samples.cherie; Samples.paul] (Scraping.scrape_person MoreSamples.no_details)
    (Scraping.State [Scraping.field_names] [] [] 0 ∅)
  = (Scraping.State [Scraping.field_names] ["Scraping Cherie Abbanat..."]
       [(Some "http://dusp.mit.edu/pictures/Cherie Abbanat",
         "/home/user/python-bs/images/cherie_abbanat.jpg")]
       0 {["image_file" := VStr "cherie_abbanat.jpg"]},
     Raise (MkExn ServiceError "ConnectionError")).
Proof.
  epose proof (failed_detail_request_aborts MoreSamples.no_details Samples.cherie
                 [Samples.paul] (Scraping.State [Scraping.field_names] [] [] 0 ∅)
                 _ _ _ _ _ _ _ _ _
                 eq_refl eq_refl eq_refl eq_refl eq_refl eq_refl eq_refl eq_refl) as H.
  rewrite H. reflexivity.
Defined.

Lemma interests_label_without_value_aborts_witness :
  let st := Scraping.State [Scraping.field_names] [] [] 0 ∅ in
  (∃ msg, Scraping.interests_text MoreSamples.lone_label = Raise (MkExn AttributeError msg))
  ∧ ∃ st' e,
      for_each [Samples.cherie; Samples.paul]
        (Scraping.scrape_person MoreSamples.lone_labels) st = (st', Raise e)
      ∧ Scraping.faculty_csv st' = Scraping.faculty_csv st.
Proof.
  intros st.
  assert (Hshort : length [Html.Text " "] < 2) by (simpl; lia).
  exact (interests_label_without_value_aborts MoreSamples.lone_labels Samples.cherie
           [Samples.paul] _ _ _ _ _ "http://dusp.mit.edu/faculty/cherie-abbanat" st
           eq_refl eq_refl eq_refl eq_refl Hshort).
Defined.

Lemma link_without_address_aborts_witness :
  ∃ msg,
    for_each [MoreSamples.unlinked; Samples.cherie]
      (Scraping.scrape_person (Samples.web true))
      (Scraping.State [Scraping.field_names] [] [] 0 ∅)
    = (Scraping.State [Scraping.field_names] ["Scraping Eran Ben-Joseph..."] [] 0 ∅,
       Raise (MkExn TypeError msg)).
Proof.
  exact (link_without_address_aborts (Samples.web true) MoreSamples.unlinked
           [Samples.cherie] _ _ (Scraping.State [Scraping.field_names] [] [] 0 ∅)
           eq_refl eq_refl).
Defined.

Lemma detail_columns_come_from_own_page_witness :
  let st := Scraping.State [Scraping.field_names] [] [] 0 ∅ in
  let st' := (Scraping.scrape_person (Samples.web true) Samples.cherie st).1 in
  Scraping.scrape_person (Samples.web true) Samples.cherie st = (st', Ok ())
  ∧ ∃ name_href siblings h content cells,
      Html.find "a" (Some "username") Samples.cherie = Some (name_href, siblings)
      ∧ Html.get "href" name_href = Some h
      ∧ Scraping.requests_get (Samples.web true) ("http://dusp.mit.edu" +:+ h) = Ok content
      ∧ Scraping.faculty_csv st' = Scraping.faculty_csv st ++ [cells]
      ∧ Scraping.column "href" cells = Some ("http://dusp.mit.edu" +:+ h)
      ∧ Scraping.column "email" cells = Some "".
Proof.
  intros st st'.
  assert (Hrun : Scraping.scrape_person (Samples.web true) Samples.cherie st = (st', Ok ()))
    by (vm_compute; reflexivity).
  split; [exact Hrun|].
  destruct (detail_columns_come_from_own_page (Samples.web true) Samples.cherie st st' Hrun)
    as (name_href & siblings & h & content & cells
        & Hfind & Hget & Hreq & Hcsv & Hhref & _ & _ & Hemail & _).
  exists name_href, siblings, h, content, cells.
  split; [exact Hfind|]. split; [exact Hget|]. split; [exact Hreq|].
  split; [exact Hcsv|]. split; [exact Hhref|].
  rewrite Hemail. f_equal.
  assert (Hh : h = "/faculty/cherie-abbanat").
  { assert (Hh' : Some h = Some "/faculty/cherie-abbanat"); [|by injection Hh'].
    rewrite <- Hget.
    assert (Hn : Some (name_href, siblings)
                 = Html.find "a" (Some "username") Samples.cherie) by done.
    vm_compute in Hn. injection Hn as -> ->. reflexivity. }
  subst h. vm_compute in Hreq. injection Hreq as <-. reflexivity.
Defined.

Lemma first_cell_writes_the_same_columns_witness :
  let st := Scraping.State [Scraping.field_names] [] [] 0 ∅ in
  let st' := (Scraping.scrape_person (Samples.web true) Samples.cherie st).1 in
  let st1 := Scraping.State [FirstCells.field_names] [] [] 0 ∅ in
  Scraping.scrape_person (Samples.web true) Samples.cherie st = (st', Ok ())
  ∧ ∃ cells vars1,
      Scraping.faculty_csv st' = Scraping.faculty_csv st ++ [cells]
      ∧ length cells = 10
      ∧ FirstCells.scrape_person (Samples.web true) Samples.cherie st1
        = (Scraping.State (Scraping.faculty_csv st1 ++ [take 9 cells]) [] [] 0 vars1, Ok ()).
Proof.
  intros st st' st1.
  assert (Hrun : Scraping.scrape_person (Samples.web true) Samples.cherie st = (st', Ok ()))
    by (vm_compute; reflexivity).
  split; [exact Hrun|].
  exact (first_cell_writes_the_same_columns (Samples.web true) Samples.cherie st st' st1 Hrun).
Defined.

Lemma image_file_is_clean_witness :
  Slug.is_ascii "Lawrence J. Vale" = true
  ∧ ∃ stem,
      Slug.image_file_of "Lawrence J. Vale" = stem +:+ ".jpg"
      ∧ String.length stem ≤ String.length "Lawrence J. Vale"
      ∧ Slug.is_ascii stem = true
      ∧ ∀ a, a ∈ Stdlib.Strings.String.list_ascii_of_string stem →
             a ≠ " "%char ∧ a ≠ "."%char ∧ ¬ (65 ≤ nat_of_ascii a ≤ 90).
Proof.
  split; [reflexivity|].
  exact (image_file_is_clean "Lawrence J. Vale" eq_refl).
Defined.

(** A bare [ORSKEY] after a line with a value: the client gets no key. *)
Example bare_name_clears_the_key :
  Env.key (Dotenv.make_client (Some [("ORSKEY", Some "first"); ("ORSKEY", None)]) ∅) = None.
Proof. reflexivity. Qed.

Example last_value_is_the_key :
  Env.key (Dotenv.make_client
             (Some [("ORSKEY", Some "first"); ("OTHER", None); ("ORSKEY", Some "second")]) ∅)
  = Some "second".
Proof. reflexivity. Qed.
